(** * Post-processing of quantum-walk result tables

    A shallow embedding of [post_processing.py] (class [ResultsDataframe])
    together with the Python and pandas operations it calls, followed by the
    properties of its three transformations:
    [filter_connected_columns], [add_max_and_avg] and [convert_to_decimal]. *)

From Stdlib Require Import List String Ascii Bool Arith ZArith NArith QArith Lia.
Import ListNotations.
Close Scope Q_scope.
Open Scope string_scope.
Open Scope list_scope.

(** ** Python built-ins *)

Module Py.

(** The exceptions the module can raise. *)
Inductive exn : Type := KeyError | ValueError | TypeError | IndexError.

Definition result (A : Type) : Type := (exn + A)%type.

Definition ok {A : Type} (a : A) : result A := inr a.
Definition raise {A : Type} (e : exn) : result A := inl e.

Definition rbind {A B : Type} (r : result A) (k : A -> result B) : result B :=
  match r with
  | inl e => inl e
  | inr a => k a
  end.

(** [for x in xs] collecting results, stopping at the first exception. *)
Fixpoint for_each {A B : Type} (f : A -> result B) (xs : list A) : result (list B) :=
  match xs with
  | [] => ok []
  | x :: rest =>
      rbind (f x) (fun y => rbind (for_each f rest) (fun ys => ok (y :: ys)))
  end.

(** A [str] is a sequence of code points; the model covers code points below
    256 (one [ascii] each).  [isspace] is the whitespace test shared by
    [str.split()] and [int()]: TAB..CR, FS..US, SPACE, NEL and NBSP. *)
Definition isspace (c : ascii) : bool :=
  let n := nat_of_ascii c in
  (((9 <=? n) && (n <=? 13)) || ((28 <=? n) && (n <=? 32))
   || (n =? 133) || (n =? 160))%nat.

Definition flush (tok : string) : list string :=
  match tok with
  | EmptyString => []
  | _ => [tok]
  end.

(** [split_from tok s]: [tok] is the token being read when [s] remains. *)
Fixpoint split_from (tok s : string) : list string :=
  match s with
  | EmptyString => flush tok
  | String c rest =>
      if isspace c then flush tok ++ split_from EmptyString rest
      else split_from (tok ++ String c EmptyString) rest
  end.

(** [s.split()]: maximal runs of non-whitespace characters. *)
Definition split (s : string) : list string := split_from EmptyString s.

Fixpoint lstrip (s : string) : string :=
  match s with
  | String c rest => if isspace c then lstrip rest else s
  | EmptyString => s
  end.

Fixpoint all_space (s : string) : bool :=
  match s with
  | EmptyString => true
  | String c rest => isspace c && all_space rest
  end.

(** The digit loop of [int(s, 2)]: binary digits with single underscores
    between them; [prev_us] records that the previous character was an
    underscore.  The loop stops at the first other character, after which
    only whitespace may follow. *)
Fixpoint scan_digits (prev_us : bool) (acc : N) (s : string) : option N :=
  match s with
  | EmptyString => if prev_us then None else Some acc
  | String c rest =>
      if (c =? "0")%char then scan_digits false (2 * acc)%N rest
      else if (c =? "1")%char then scan_digits false (2 * acc + 1)%N rest
      else if (c =? "_")%char then
        if prev_us then None else scan_digits true acc rest
      else if prev_us then None
      else if all_space s then Some acc else None
  end.

Definition skip_sign (s : string) : bool * string :=
  match s with
  | String c rest =>
      if (c =? "+")%char then (false, rest)
      else if (c =? "-")%char then (true, rest)
      else (false, s)
  | EmptyString => (false, s)
  end.

(** An optional [0b] / [0B] prefix, after which one underscore is allowed. *)
Definition skip_prefix (s : string) : string :=
  match s with
  | String c0 (String c1 rest) =>
      if (c0 =? "0")%char && ((c1 =? "b")%char || (c1 =? "B")%char) then
        match rest with
        | String c2 rest' => if (c2 =? "_")%char then rest' else rest
        | EmptyString => rest
        end
      else s
  | _ => s
  end.

(** [int(s, 2)]; [None] stands for [ValueError]. *)
Definition int_base2 (s : string) : option Z :=
  let (neg, s1) := skip_sign (lstrip s) in
  let s2 := skip_prefix s1 in
  match s2 with
  | String c _ =>
      if (c =? "0")%char || (c =? "1")%char then
        option_map (fun n => if neg : bool then (- Z.of_N n)%Z else Z.of_N n)
                   (scan_digits false 0%N s2)
      else None
  | EmptyString => None
  end.

(** Binary digits of a non-negative integer, most significant first. *)
Fixpoint bin_pos (p : positive) : string :=
  match p with
  | xH => "1"
  | xO q => bin_pos q ++ "0"
  | xI q => bin_pos q ++ "1"
  end.

Definition bin (n : N) : string :=
  match n with
  | N0 => "0"
  | Npos p => bin_pos p
  end.

Fixpoint zeros (k : nat) : string :=
  match k with
  | O => EmptyString
  | S k' => String "0" (zeros k')
  end.

(** [f'{n:0{width}b}'] for [n >= 0]: at least one digit, zero-padded on the
    left up to [width] characters. *)
Definition format_0b (width : nat) (n : N) : string :=
  let d := bin n in zeros (width - String.length d) ++ d.

Definition digit_char (d : nat) : ascii :=
  match d with
  | 0 => "0" | 1 => "1" | 2 => "2" | 3 => "3" | 4 => "4"
  | 5 => "5" | 6 => "6" | 7 => "7" | 8 => "8" | _ => "9"
  end%char.

(** Decimal digits by repeated division, least significant digit first
    pushed in front of [acc]. *)
Fixpoint str_digits (fuel : nat) (n : N) (acc : string) : string :=
  match fuel with
  | O => acc
  | S fuel' =>
      let acc' := String (digit_char (N.to_nat (n mod 10))) acc in
      if (n / 10 =? 0)%N then acc' else str_digits fuel' (n / 10)%N acc'
  end.

Definition str_N (n : N) : string := str_digits (S (N.to_nat n)) n EmptyString.

(** [str(z)], which is what [f"{z}"] renders. *)
Definition str_int (z : Z) : string :=
  if (z <? 0)%Z then String "-" (str_N (Z.abs_N z)) else str_N (Z.abs_N z).

(** [math.ceil(math.log2(n))].  [math.log2(0)] raises [ValueError]; for the
    sizes a square array can have the floating-point result is the exact
    ceiling of the binary logarithm. *)
Definition ceil_log2 (n : nat) : result nat :=
  match n with
  | O => raise ValueError
  | _ => ok (Nat.log2_up n)
  end.

(** [range(n)] *)
Definition range (n : nat) : list nat := seq 0 n.

End Py.

(** ** numpy and pandas operations *)

Module Np.

(** A two-dimensional numeric array, row by row. *)
Definition ndarray : Type := list (list Z).

(** [len(A)]: the size of the first axis. *)
Definition len (A : ndarray) : nat := List.length A.

(** [A[i, j]]; out-of-bounds indices raise [IndexError]. *)
Definition getitem (A : ndarray) (i j : nat) : Py.result Z :=
  match nth_error A i with
  | Some row =>
      match nth_error row j with
      | Some a => Py.ok a
      | None => Py.raise Py.IndexError
      end
  | None => Py.raise Py.IndexError
  end.

End Np.

Module Pd.
Import Py.

(** A cell holds a number (floats are idealised as exact rationals), the
    missing value, or a string. *)
Inductive cell : Type :=
| Num (q : Q)
| NaN
| Str (s : string).

(** A frame is a row index (integer labels) and an ordered list of labelled
    columns, each holding one cell per row. *)
Definition column : Type := (string * list cell)%type.

Record DataFrame : Type := mkDF {
  index : list Z;
  columns : list column
}.

(** A Series of per-column reductions: column label and value. *)
Definition Series : Type := list (string * cell).

Definition tolist (s : Series) : list cell := map snd s.

(** [df.columns] as a list of labels. *)
Definition labels (d : DataFrame) : list string := map fst (columns d).

(** [len(df)]: the number of rows. *)
Definition len (d : DataFrame) : nat := List.length (index d).

(** [df.copy()]: a new frame holding the same values. *)
Definition copy (d : DataFrame) : DataFrame := mkDF (index d) (columns d).

Definition has_label (l : string) (ls : list string) : bool :=
  existsb (String.eqb l) ls.

(** [df.drop(label, axis=1)]: every column carrying [label] is removed;
    [KeyError] if there is none. *)
Definition drop (label : string) (d : DataFrame) : result DataFrame :=
  if has_label label (labels d) then
    ok (mkDF (index d)
             (filter (fun c => negb (String.eqb (fst c) label)) (columns d)))
  else raise KeyError.

(** The numeric values of a column for a reduction with [skipna=True];
    a string in the column makes the reduction raise [TypeError]. *)
Fixpoint numeric (cs : list cell) : result (list Q) :=
  match cs with
  | [] => ok []
  | Num q :: rest => rbind (numeric rest) (fun qs => ok (q :: qs))
  | NaN :: rest => numeric rest
  | Str _ :: _ => raise TypeError
  end.

Definition qmax (a b : Q) : Q := if Qle_bool a b then b else a.

Definition max_of (qs : list Q) : cell :=
  match qs with
  | [] => NaN
  | q :: rest => Num (fold_left qmax rest q)
  end.

Definition mean_of (qs : list Q) : cell :=
  match qs with
  | [] => NaN
  | _ => Num (fold_left Qplus qs 0%Q / inject_Z (Z.of_nat (List.length qs)))%Q
  end.

Definition reduce (f : list Q -> cell) (d : DataFrame) : result Series :=
  for_each (fun c : column => rbind (numeric (snd c)) (fun qs => ok (fst c, f qs)))
           (columns d).

(** [df.max()] and [df.mean()], column by column. *)
Definition max (d : DataFrame) : result Series := reduce max_of d.
Definition mean (d : DataFrame) : result Series := reduce mean_of d.

(** Cells of a column after the rows labelled [label] are overwritten. *)
Fixpoint overwrite (idx : list Z) (label : Z) (v : cell) (cs : list cell) : list cell :=
  match idx, cs with
  | i :: idx', c :: cs' =>
      (if (i =? label)%Z then v else c) :: overwrite idx' label v cs'
  | _, _ => cs
  end.

(** [df.loc[label] = row]: the row is matched with the columns by position.
    An existing label is overwritten, a new one enlarges the frame by one
    row; a row of the wrong length raises [ValueError]. *)
Definition loc_setitem (d : DataFrame) (label : Z) (row : list cell) : result DataFrame :=
  if (List.length row =? List.length (columns d))%nat then
    if existsb (Z.eqb label) (index d) then
      ok (mkDF (index d)
               (map (fun cv : column * cell =>
                       (fst (fst cv), overwrite (index d) label (snd cv) (snd (fst cv))))
                    (combine (columns d) row)))
    else
      ok (mkDF (index d ++ [label])
               (map (fun cv : column * cell => (fst (fst cv), snd (fst cv) ++ [snd cv]))
                    (combine (columns d) row)))
  else raise ValueError.

(** [df[keys]]: for each key in turn, every column carrying that label;
    [KeyError] if a key labels no column. *)
Definition getitem (d : DataFrame) (keys : list string) : result DataFrame :=
  if forallb (fun k => has_label k (labels d)) keys then
    ok (mkDF (index d)
             (flat_map (fun k => filter (fun c => String.eqb (fst c) k) (columns d)) keys))
  else raise KeyError.

(** A [dict] from labels to labels; the latest binding of a key wins. *)
Definition dict : Type := list (string * string).

Definition dict_set (m : dict) (k v : string) : dict := (k, v) :: m.

Fixpoint dict_get (m : dict) (k default : string) : string :=
  match m with
  | [] => default
  | (k', v) :: rest => if String.eqb k' k then v else dict_get rest k default
  end.

(** [df.rename(columns=m)]: labels missing from [m] are left alone. *)
Definition rename (m : dict) (d : DataFrame) : DataFrame :=
  mkDF (index d) (map (fun c : column => (dict_get m (fst c) (fst c), snd c)) (columns d)).

End Pd.

(** ** The class [ResultsDataframe] *)

(** An instance holds one frame in its attribute [df]. *)
Record ResultsDataframe : Type := mkRDF { df : Pd.DataFrame }.

(** A method runs on the instance, may rebind [self.df] and may raise; what
    it did to the instance before raising stays done. *)
Definition method (A : Type) : Type :=
  ResultsDataframe -> ResultsDataframe * Py.result A.

Definition ret {A : Type} (a : A) : method A := fun self => (self, Py.ok a).

Definition bind {A B : Type} (m : method A) (k : A -> method B) : method B :=
  fun self =>
    match m self with
    | (self', inr a) => k a self'
    | (self', inl e) => (self', inl e)
    end.

(** Evaluate an expression that may raise. *)
Definition eval {A : Type} (r : Py.result A) : method A := fun self => (self, r).

(** Read [self.df]. *)
Definition self_df : method Pd.DataFrame := fun self => (self, Py.ok (df self)).

(** [self.df = d] *)
Definition set_self_df (d : Pd.DataFrame) : method unit :=
  fun _ => (mkRDF d, Py.ok tt).

Declare Scope method_scope.
Delimit Scope method_scope with method.
Notation "x <- m ;; k" := (bind m (fun x => k))
  (at level 61, m at next level, right associativity) : method_scope.
Notation "m ;; k" := (bind m (fun _ => k))
  (at level 61, right associativity) : method_scope.
Open Scope method_scope.

(** [add_max_and_avg]: both reductions are computed on the frame without its
    ['Time'] column, then two rows are written at the labels [len(self.df)],
    the sentinel leading each row. *)
Definition add_max_and_avg : method unit :=
  d <- self_df ;;
  set_self_df (Pd.copy d) ;;
  d <- self_df ;;
  dropped <- eval (Pd.drop "Time" d) ;;
  p_max <- eval (Pd.max dropped) ;;
  d <- self_df ;;
  dropped <- eval (Pd.drop "Time" d) ;;
  p_avg <- eval (Pd.mean dropped) ;;
  d <- self_df ;;
  d' <- eval (Pd.loc_setitem d (Z.of_nat (Pd.len d)) (Pd.Str "P-max" :: Pd.tolist p_max)) ;;
  set_self_df d' ;;
  d <- self_df ;;
  d' <- eval (Pd.loc_setitem d (Z.of_nat (Pd.len d)) (Pd.Str "P-avg" :: Pd.tolist p_avg)) ;;
  set_self_df d'.

(** The label [f'{i:0{num_bits}b} {j:0{num_bits}b}'] of the pair [(i, j)]. *)
Definition pair_label (num_bits i j : nat) : string :=
  Py.format_0b num_bits (N.of_nat i) ++ " " ++ Py.format_0b num_bits (N.of_nat j).

(** The pairs [for i in range(num_nodes) for j in range(num_nodes)]. *)
Definition node_pairs (num_nodes : nat) : list (nat * nat) :=
  list_prod (Py.range num_nodes) (Py.range num_nodes).

(** The set [real_connections]; reading [A[i, j]] may raise. *)
Definition real_connections (A : Np.ndarray) (num_nodes num_bits : nat)
  : Py.result (list string) :=
  Py.rbind
    (Py.for_each
       (fun ij : nat * nat =>
          Py.rbind (Np.getitem A (fst ij) (snd ij)) (fun a => Py.ok (ij, a)))
       (node_pairs num_nodes))
    (fun entries =>
       Py.ok (map (fun e : nat * nat * Z => pair_label num_bits (fst (fst e)) (snd (fst e)))
                  (filter (fun e : nat * nat * Z => negb (snd e =? 0)%Z) entries))).

(** The set [same_nodes]. *)
Definition same_nodes (num_nodes num_bits : nat) : list string :=
  map (fun ij : nat * nat => pair_label num_bits (fst ij) (snd ij))
      (filter (fun ij : nat * nat => (fst ij =? snd ij)%nat) (node_pairs num_nodes)).

(** [col in s] for a set of strings. *)
Definition set_mem (col : string) (s : list string) : bool :=
  existsb (String.eqb col) s.

(** The body of [filter_connected_columns] once [num_bits] is known. *)
Definition filter_with_bits (A : Np.ndarray) (num_nodes num_bits : nat) : method unit :=
  real <- eval (real_connections A num_nodes num_bits) ;;
  let same := same_nodes num_nodes num_bits in
  d <- self_df ;;
  let columns_to_keep := filter (fun col => negb (set_mem col real)) (Pd.labels d) in
  let columns_to_keep := filter (fun col => negb (set_mem col same)) columns_to_keep in
  d <- self_df ;;
  d' <- eval (Pd.getitem d columns_to_keep) ;;
  set_self_df d'.

Definition filter_connected_columns (A : Np.ndarray) : method unit :=
  let num_nodes := Np.len A in
  num_bits <- eval (Py.ceil_log2 num_nodes) ;;
  filter_with_bits A num_nodes num_bits.

(** The new label [convert_to_decimal] computes for one column: the
    [try] block unpacks exactly two tokens and reads both in base 2; any
    exception leaves the label as it is. *)
Definition decimal_label (col : string) : string :=
  if String.eqb col "Time" then col
  else
    match Py.split col with
    | [part1; part2] =>
        match Py.int_base2 part1, Py.int_base2 part2 with
        | Some a, Some c => Py.str_int a ++ "-" ++ Py.str_int c
        | _, _ => col
        end
    | _ => col
    end.

(** The loop filling [new_columns]. *)
Definition new_columns (cols : list string) : Pd.dict :=
  fold_left (fun m col => Pd.dict_set m col (decimal_label col)) cols [].

Definition convert_to_decimal : method unit :=
  d <- self_df ;;
  let m := new_columns (Pd.labels d) in
  d <- self_df ;;
  set_self_df (Pd.rename m d).

Definition postprocess_superposition (A : Np.ndarray) : method unit :=
  filter_connected_columns A ;;
  add_max_and_avg ;;
  convert_to_decimal.

Definition postprocess_one_node : method unit := add_max_and_avg.

(** ** Vocabulary of the properties *)

(** Characters of a string. *)
Definition chars (s : string) : list ascii := list_ascii_of_string s.

Definition nospace (s : string) : Prop :=
  forall c, In c (chars s) -> Py.isspace c = false.

Definition is_bit (c : ascii) : bool := ((c =? "0") || (c =? "1"))%char.

Definition binary_digits (s : string) : Prop :=
  forall c, In c (chars s) -> is_bit c = true.


(** Value of a string of binary digits read after [acc]. *)
Fixpoint bits_fold (acc : N) (s : string) : N :=
  match s with
  | EmptyString => acc
  | String c rest => bits_fold (if (c =? "1")%char then 2 * acc + 1 else 2 * acc)%N rest
  end.

Definition is_decimal_digit (c : ascii) : bool :=
  ((48 <=? nat_of_ascii c) && (nat_of_ascii c <=? 57))%nat.

(** Value of a string of decimal digits read after [acc]. *)
Fixpoint decimal_fold (acc : N) (s : string) : N :=
  match s with
  | EmptyString => acc
  | String c rest => decimal_fold (10 * acc + N.of_nat (nat_of_ascii c - 48))%N rest
  end.


(** [A] is an [n] by [n] array. *)
Definition square (n : nat) (A : Np.ndarray) : Prop :=
  List.length A = n /\ Forall (fun row => List.length row = n) A.

(** The entry [A[i][j]] of a square array, for indices in range. *)
Definition entry (A : Np.ndarray) (i j : nat) : Z := nth j (nth i A []) 0%Z.

(** [col] encodes, at [num_bits] bits, a real edge or a self-pair of [A]. *)
Definition edge_or_self (A : Np.ndarray) (n num_bits : nat) (col : string) : Prop :=
  exists i j, (i < n)%nat /\ (j < n)%nat /\
              (entry A i j <> 0%Z \/ i = j) /\ col = pair_label num_bits i j.

(** The labels excluded by [filter_connected_columns], as one list. *)
Definition exclusions (A : Np.ndarray) (n num_bits : nat) : list string :=
  map (fun ij : nat * nat => pair_label num_bits (fst ij) (snd ij))
      (filter (fun ij : nat * nat =>
                 negb (entry A (fst ij) (snd ij) =? 0)%Z || (fst ij =? snd ij)%nat)
              (node_pairs n)).

Definition kept (A : Np.ndarray) (n num_bits : nat) (c : Pd.column) : bool :=
  negb (set_mem (fst c) (exclusions A n num_bits)).

(** Every column has one cell per row. *)
Definition rectangular (d : Pd.DataFrame) : Prop :=
  Forall (fun c : Pd.column => List.length (snd c) = Pd.len d) (Pd.columns d).

(** Row [i] of a frame: its label and its cells, column by column. *)
Definition row (d : Pd.DataFrame) (i : nat) : option Z * list (option Pd.cell) :=
  (nth_error (Pd.index d) i,
   map (fun c : Pd.column => nth_error (snd c) i) (Pd.columns d)).

(** The cell of row [i] in the first column labelled [col]. *)
Definition cell_at (d : Pd.DataFrame) (col : string) (i : nat) : option Pd.cell :=
  match find (fun c : Pd.column => String.eqb (fst c) col) (Pd.columns d) with
  | Some c => nth_error (snd c) i
  | None => None
  end.

(** No string among the cells (numbers and missing values only). *)
Definition no_str (cs : list Pd.cell) : Prop :=
  forall s, ~ In (Pd.Str s) cs.

(** The numbers among the cells. *)
Fixpoint values (cs : list Pd.cell) : list Q :=
  match cs with
  | [] => []
  | Pd.Num q :: rest => q :: values rest
  | _ :: rest => values rest
  end.




(** Index and cells after [df.loc[label] = ...] wrote [v] into a column. *)
Definition index_after (idx : list Z) (label : Z) : list Z :=
  if existsb (Z.eqb label) idx then idx else idx ++ [label].

Definition cells_after (idx : list Z) (label : Z) (v : Pd.cell) (cs : list Pd.cell)
  : list Pd.cell :=
  if existsb (Z.eqb label) idx then Pd.overwrite idx label v cs else cs ++ [v].

(** A column after both summary rows were written. *)
Definition summarised (idx : list Z) (vmax vavg : Pd.cell) (c : Pd.column) : Pd.column :=
  let l1 := Z.of_nat (List.length idx) in
  let idx1 := index_after idx l1 in
  let l2 := Z.of_nat (List.length idx1) in
  (fst c, cells_after idx1 l2 vavg (cells_after idx l1 vmax (snd c))).

Definition summarised_data (idx : list Z) (c : Pd.column) : Pd.column :=
  summarised idx (Pd.max_of (values (snd c))) (Pd.mean_of (values (snd c))) c.

(** The row labels [m] and [m + 1] are not in use in a frame of [m] rows, as
    with the default labels [0 .. m-1]. *)
Definition fresh_labels (idx : list Z) : Prop :=
  ~ In (Z.of_nat (List.length idx)) idx /\ ~ In (Z.of_nat (S (List.length idx))) idx.

(** ** Example data *)

(** Four nodes with the edges 0 -> 1 and 2 -> 3. *)
Definition example_adjacency : Np.ndarray :=
  [[0; 1; 0; 0]; [0; 0; 0; 0]; [0; 0; 0; 1]; [0; 0; 0; 0]]%Z.

(** Two time steps over four node pairs, ['Time'] first. *)
Definition example_table : Pd.DataFrame :=
  Pd.mkDF [0; 1]%Z
    [("Time", [Pd.Num 0; Pd.Num 1]);
     ("00 01", [Pd.Num (2 # 10); Pd.Num (8 # 10)]);
     ("00 10", [Pd.Num (5 # 10); Pd.Num (1 # 10)]);
     ("01 10", [Pd.Num (1 # 10); Pd.Num (4 # 10)]);
     ("10 11", [Pd.Num (3 # 10); Pd.Num (6 # 10)])].

(** A table whose ['Time'] column comes second, after a self-pair column. *)
Definition time_second_table : Pd.DataFrame :=
  Pd.mkDF [0; 1]%Z
    [("00 00", [Pd.Num (2 # 10); Pd.Num (8 # 10)]);
     ("Time", [Pd.Num 0; Pd.Num 1]);
     ("00 10", [Pd.Num (5 # 10); Pd.Num (1 # 10)])].


(** A table without a ['Time'] column. *)
Definition untimed_table : Pd.DataFrame :=
  Pd.mkDF [0; 1]%Z [("A", [Pd.Num (1 # 4); Pd.Num (3 # 4)])].

(** ** Strings: tokens, binary and decimal numerals *)

Lemma chars_app (s t : string) : chars (s ++ t) = chars s ++ chars t.
Proof.
  unfold chars. induction s as [|c s IH]; simpl; [reflexivity | now rewrite IH].
Qed.

Lemma string_app_nil_r (s : string) : (s ++ "")%string = s.
Proof. induction s as [|c s IH]; simpl; [reflexivity | now rewrite IH]. Qed.

Lemma string_app_assoc (s t u : string) : ((s ++ t) ++ u = s ++ (t ++ u))%string.
Proof. induction s as [|c s IH]; simpl; [reflexivity | now rewrite IH]. Qed.

Lemma string_app_nonempty (s t : string) :
  t <> EmptyString -> (s ++ t)%string <> EmptyString.
Proof. destruct s; simpl; [auto | discriminate]. Qed.

Lemma nospace_app (s t : string) : nospace s -> nospace t -> nospace (s ++ t).
Proof.
  intros Hs Ht c Hc. rewrite chars_app in Hc.
  apply in_app_or in Hc as [Hc | Hc]; auto.
Qed.

Lemma nospace_cons (c : ascii) (s : string) :
  nospace (String c s) <-> Py.isspace c = false /\ nospace s.
Proof.
  split.
  - intros H. split; [apply H; now left | intros x Hx; apply H; now right].
  - intros [Hc Hs] x [<- | Hx]; auto.
Qed.

(** Reading a run of non-whitespace characters extends the current token. *)
Lemma split_from_token (t tok rest : string) :
  nospace t ->
  Py.split_from tok (t ++ rest) = Py.split_from (tok ++ t) rest.
Proof.
  revert tok. induction t as [|c t IH]; intros tok Ht; simpl.
  - now rewrite string_app_nil_r.
  - apply nospace_cons in Ht as [Hc Ht]. rewrite Hc, IH by assumption.
    now rewrite string_app_assoc.
Qed.

Lemma flush_nonempty (t : string) : t <> EmptyString -> Py.flush t = [t].
Proof. destruct t; [congruence | reflexivity]. Qed.

(** A non-empty string without whitespace is its own single token. *)
Lemma split_single (t : string) :
  t <> EmptyString -> nospace t -> Py.split t = [t].
Proof.
  intros Hne Ht. unfold Py.split.
  rewrite <- (string_app_nil_r t) at 1.
  rewrite split_from_token by assumption. simpl. now apply flush_nonempty.
Qed.

(** Two such strings around one space are two tokens. *)
Lemma split_pair (t u : string) :
  t <> EmptyString -> nospace t -> u <> EmptyString -> nospace u ->
  Py.split (t ++ " " ++ u) = [t; u].
Proof.
  intros Ht Nt Hu Nu. unfold Py.split.
  rewrite split_from_token by assumption. simpl.
  rewrite (flush_nonempty t Ht). simpl. f_equal.
  now apply split_single.
Qed.



Lemma is_bit_nospace (c : ascii) : is_bit c = true -> Py.isspace c = false.
Proof.
  unfold is_bit. intros H. apply orb_true_iff in H as [H | H];
    apply Ascii.eqb_eq in H; subst c; reflexivity.
Qed.

Lemma binary_digits_nospace (s : string) : binary_digits s -> nospace s.
Proof. intros H c Hc. apply is_bit_nospace. now apply H. Qed.

Lemma binary_digits_app (s t : string) :
  binary_digits s -> binary_digits t -> binary_digits (s ++ t).
Proof.
  intros Hs Ht c Hc. rewrite chars_app in Hc.
  apply in_app_or in Hc as [Hc | Hc]; auto.
Qed.

Lemma binary_digits_cons (c : ascii) (s : string) :
  binary_digits (String c s) <-> is_bit c = true /\ binary_digits s.
Proof.
  split.
  - intros H. split; [apply H; now left | intros x Hx; apply H; now right].
  - intros [Hc Hs] x [<- | Hx]; auto.
Qed.

Lemma binary_digits_zeros (k : nat) : binary_digits (Py.zeros k).
Proof.
  induction k as [|k IH]; simpl; [intros c [] |].
  apply binary_digits_cons. split; [reflexivity | assumption].
Qed.

Lemma binary_digits_bin_pos (p : positive) : binary_digits (Py.bin_pos p).
Proof.
  induction p as [p IH | p IH |]; simpl.
  - apply binary_digits_app; [assumption |]. apply binary_digits_cons.
    split; [reflexivity | intros c []].
  - apply binary_digits_app; [assumption |]. apply binary_digits_cons.
    split; [reflexivity | intros c []].
  - apply binary_digits_cons. split; [reflexivity | intros c []].
Qed.

Lemma binary_digits_bin (n : N) : binary_digits (Py.bin n).
Proof.
  destruct n as [|p]; simpl; [| apply binary_digits_bin_pos].
  apply binary_digits_cons. split; [reflexivity | intros c []].
Qed.

Lemma bin_pos_nonempty (p : positive) : Py.bin_pos p <> EmptyString.
Proof.
  destruct p; simpl; try discriminate; apply string_app_nonempty; discriminate.
Qed.

Lemma bin_nonempty (n : N) : Py.bin n <> EmptyString.
Proof. destruct n; simpl; [discriminate | apply bin_pos_nonempty]. Qed.

Lemma binary_digits_format_0b (w : nat) (n : N) : binary_digits (Py.format_0b w n).
Proof.
  unfold Py.format_0b. apply binary_digits_app;
    [apply binary_digits_zeros | apply binary_digits_bin].
Qed.

Lemma format_0b_nonempty (w : nat) (n : N) : Py.format_0b w n <> EmptyString.
Proof. unfold Py.format_0b. apply string_app_nonempty, bin_nonempty. Qed.

(** *** [int(s, 2)] on strings of binary digits *)

Lemma scan_digits_bits (s rest : string) (acc : N) :
  binary_digits s ->
  Py.scan_digits false acc (s ++ rest) = Py.scan_digits false (bits_fold acc s) rest.
Proof.
  revert acc. induction s as [|c s IH]; intros acc Hs; simpl; [reflexivity |].
  apply binary_digits_cons in Hs as [Hc Hs]. unfold is_bit in Hc.
  destruct (c =? "0")%char eqn:H0.
  - apply Ascii.eqb_eq in H0. subst c. simpl. now apply IH.
  - simpl in Hc. rewrite Hc. now apply IH.
Qed.

Lemma bits_fold_app (s t : string) (acc : N) :
  bits_fold acc (s ++ t) = bits_fold (bits_fold acc s) t.
Proof. revert acc. induction s as [|c s IH]; intros acc; simpl; [reflexivity | apply IH]. Qed.

Lemma bits_fold_zeros (k : nat) : bits_fold 0 (Py.zeros k) = 0%N.
Proof. induction k as [|k IH]; simpl; [reflexivity | exact IH]. Qed.

Lemma bits_fold_bin_pos (p : positive) : bits_fold 0 (Py.bin_pos p) = Npos p.
Proof.
  induction p as [p IH | p IH |]; simpl; try reflexivity;
    rewrite bits_fold_app, IH; reflexivity.
Qed.

Lemma bits_fold_bin (n : N) : bits_fold 0 (Py.bin n) = n.
Proof. destruct n; simpl; [reflexivity | apply bits_fold_bin_pos]. Qed.

Lemma bits_fold_format_0b (w : nat) (n : N) : bits_fold 0 (Py.format_0b w n) = n.
Proof.
  unfold Py.format_0b. now rewrite bits_fold_app, bits_fold_zeros, bits_fold_bin.
Qed.

(** On a non-empty string of binary digits [int(s, 2)] is its value: there
    is no whitespace to strip, no sign and no prefix. *)
Lemma int_base2_binary (s : string) :
  s <> EmptyString -> binary_digits s ->
  Py.int_base2 s = Some (Z.of_N (bits_fold 0 s)).
Proof.
  intros Hne Hs. destruct s as [|c s]; [congruence |].
  pose proof Hs as Hs'. apply binary_digits_cons in Hs' as [Hc Hrest].
  unfold Py.int_base2. cbn [Py.lstrip]. rewrite (is_bit_nospace c Hc).
  assert (Hplus : (c =? "+")%char = false).
  { unfold is_bit in Hc. apply orb_true_iff in Hc as [H | H];
      apply Ascii.eqb_eq in H; subst c; reflexivity. }
  assert (Hminus : (c =? "-")%char = false).
  { unfold is_bit in Hc. apply orb_true_iff in Hc as [H | H];
      apply Ascii.eqb_eq in H; subst c; reflexivity. }
  unfold Py.skip_sign. rewrite Hplus, Hminus.
  assert (Hpre : Py.skip_prefix (String c s) = String c s).
  { unfold Py.skip_prefix. destruct s as [|c1 s]; [reflexivity |].
    apply binary_digits_cons in Hrest as [Hc1 _].
    assert (Hb : ((c1 =? "b") || (c1 =? "B"))%char = false).
    { unfold is_bit in Hc1. apply orb_true_iff in Hc1 as [H | H];
        apply Ascii.eqb_eq in H; subst c1; reflexivity. }
    rewrite Hb, andb_false_r. reflexivity. }
  rewrite Hpre. unfold is_bit in Hc. rewrite Hc.
  rewrite <- (string_app_nil_r (String c s)) at 1.
  rewrite scan_digits_bits by assumption. reflexivity.
Qed.

Lemma int_base2_format_0b (w : nat) (n : N) :
  Py.int_base2 (Py.format_0b w n) = Some (Z.of_N n).
Proof.
  rewrite int_base2_binary;
    [ now rewrite bits_fold_format_0b
    | apply format_0b_nonempty
    | apply binary_digits_format_0b ].
Qed.

(** Width of the zero-padded rendering. *)
Lemma string_length_app (s t : string) :
  String.length (s ++ t) = (String.length s + String.length t)%nat.
Proof. induction s as [|c s IH]; simpl; [reflexivity | now rewrite IH]. Qed.

Lemma length_zeros (k : nat) : String.length (Py.zeros k) = k.
Proof. induction k as [|k IH]; simpl; [reflexivity | now rewrite IH]. Qed.

Lemma length_bin_pos (p : positive) : String.length (Py.bin_pos p) = Pos.size_nat p.
Proof.
  induction p as [p IH | p IH |]; simpl; try reflexivity;
    rewrite string_length_app, IH; simpl; lia.
Qed.

Lemma size_nat_bound (p : positive) (b : nat) :
  (Npos p < 2 ^ N.of_nat b)%N -> (Pos.size_nat p <= b)%nat.
Proof.
  revert b. induction p as [p IH | p IH |]; intros b Hb; simpl.
  - destruct b as [|b]; [simpl in Hb; lia |].
    apply le_n_S, IH. rewrite Nat2N.inj_succ, N.pow_succ_r' in Hb. lia.
  - destruct b as [|b]; [simpl in Hb; lia |].
    apply le_n_S, IH. rewrite Nat2N.inj_succ, N.pow_succ_r' in Hb. lia.
  - destruct b as [|b]; [simpl in Hb; lia | lia].
Qed.

Lemma length_format_0b (b : nat) (n : N) :
  (1 <= b)%nat -> (n < 2 ^ N.of_nat b)%N -> String.length (Py.format_0b b n) = b.
Proof.
  intros Hb Hn. unfold Py.format_0b. rewrite string_length_app, length_zeros.
  assert (String.length (Py.bin n) <= b)%nat; [| lia].
  destruct n as [|p]; simpl; [lia |].
  rewrite length_bin_pos. now apply size_nat_bound.
Qed.

(** *** Decimal rendering *)

Lemma digit_char_spec (d : nat) :
  (d < 10)%nat ->
  is_decimal_digit (Py.digit_char d) = true /\
  (nat_of_ascii (Py.digit_char d) - 48 = d)%nat.
Proof.
  intros Hd.
  do 10 (destruct d as [|d]; [split; reflexivity |]). lia.
Qed.

Lemma digit_char_zero (d : nat) :
  (d < 10)%nat -> Py.digit_char d = "0"%char -> d = 0%nat.
Proof.
  intros Hd. destruct d as [|d]; [reflexivity |].
  do 9 (destruct d as [|d]; [discriminate |]). lia.
Qed.

Lemma str_digits_acc (fuel : nat) (n : N) (acc : string) :
  Py.str_digits fuel n acc = (Py.str_digits fuel n EmptyString ++ acc)%string.
Proof.
  revert n acc. induction fuel as [|fuel IH]; intros n acc; simpl; [reflexivity |].
  destruct (n / 10 =? 0)%N; [reflexivity |].
  rewrite IH. rewrite (IH _ (String _ EmptyString)).
  now rewrite string_app_assoc.
Qed.

(** Any fuel above [n] gives the same digits. *)
Lemma str_digits_fuel (f1 f2 : nat) (n : N) (acc : string) :
  (N.to_nat n < f1)%nat -> (N.to_nat n < f2)%nat ->
  Py.str_digits f1 n acc = Py.str_digits f2 n acc.
Proof.
  revert f2 n acc. induction f1 as [|f1 IH]; intros f2 n acc H1 H2; [lia |].
  destruct f2 as [|f2]; [lia |]. simpl.
  destruct (n / 10 =? 0)%N eqn:Hq; [reflexivity |].
  apply N.eqb_neq in Hq.
  assert (n / 10 < n)%N by (apply N.div_lt; [destruct n; [now elim Hq | lia] | lia]).
  apply IH; lia.
Qed.

Lemma div10_lt (n : N) : (10 <= n)%N -> (0 <= n / 10 < n)%N.
Proof. intros Hn. split; [apply N.le_0_l | apply N.div_lt; lia]. Qed.

Lemma str_N_small (n : N) :
  (n < 10)%N -> Py.str_N n = String (Py.digit_char (N.to_nat n)) EmptyString.
Proof.
  intros Hn. unfold Py.str_N. simpl.
  rewrite N.div_small, N.mod_small by assumption. reflexivity.
Qed.

Lemma str_N_step (n : N) :
  (10 <= n)%N ->
  Py.str_N n =
  (Py.str_N (n / 10) ++ String (Py.digit_char (N.to_nat (n mod 10))) EmptyString)%string.
Proof.
  intros Hn. unfold Py.str_N at 1. simpl.
  assert (Hq : (n / 10 <> 0)%N).
  { intros H0. apply N.div_small_iff in H0; lia. }
  apply N.eqb_neq in Hq. rewrite Hq. apply N.eqb_neq in Hq.
  rewrite str_digits_acc. f_equal.
  assert (n / 10 < n)%N by (apply N.div_lt; lia).
  apply str_digits_fuel; lia.
Qed.

Lemma decimal_fold_app (s t : string) (acc : N) :
  decimal_fold acc (s ++ t) = decimal_fold (decimal_fold acc s) t.
Proof. revert acc. induction s as [|c s IH]; intros acc; simpl; [reflexivity | apply IH]. Qed.

Lemma mod10_digit (n : N) : (N.to_nat (n mod 10) < 10)%nat.
Proof. pose proof (N.mod_lt n 10). lia. Qed.

Lemma str_N_digits (n : N) :
  forall c, In c (chars (Py.str_N n)) -> is_decimal_digit c = true.
Proof.
  induction (N.lt_wf 0 n) as [n _ IH]. intros c Hc.
  destruct (N.lt_ge_cases n 10) as [Hn | Hn].
  - rewrite str_N_small in Hc by assumption. destruct Hc as [<- | []].
    apply digit_char_spec. lia.
  - rewrite str_N_step, chars_app in Hc by assumption.
    apply in_app_or in Hc as [Hc | Hc].
    + apply (IH (n / 10)%N); [| assumption].
      apply div10_lt; assumption.
    + destruct Hc as [<- | []]. apply digit_char_spec, mod10_digit.
Qed.

Lemma str_N_value (n : N) : decimal_fold 0 (Py.str_N n) = n.
Proof.
  induction (N.lt_wf 0 n) as [n _ IH].
  destruct (N.lt_ge_cases n 10) as [Hn | Hn].
  - rewrite str_N_small by assumption. cbn [decimal_fold].
    destruct (digit_char_spec (N.to_nat n)) as [_ ->]; lia.
  - rewrite str_N_step, decimal_fold_app by assumption.
    rewrite IH by (apply div10_lt; assumption). cbn [decimal_fold].
    destruct (digit_char_spec _ (mod10_digit n)) as [_ ->].
    rewrite N2Nat.id. pose proof (N.div_mod n 10). lia.
Qed.

Lemma str_N_head (n : N) :
  n <> 0%N -> exists c rest, Py.str_N n = String c rest /\ c <> "0"%char.
Proof.
  induction (N.lt_wf 0 n) as [n _ IH]. intros Hn0.
  destruct (N.lt_ge_cases n 10) as [Hn | Hn].
  - rewrite str_N_small by assumption. eexists _, _. split; [reflexivity |].
    intros H. apply digit_char_zero in H; lia.
  - assert (Hq : (n / 10 <> 0)%N).
    { intros H0. apply N.div_small_iff in H0; lia. }
    destruct (IH (n / 10)%N) as (c & rest & Heq & Hc);
      [apply div10_lt; assumption | assumption |].
    rewrite str_N_step, Heq by assumption. simpl. eexists _, _. split; [reflexivity | assumption].
Qed.

Lemma str_N_nonempty (n : N) : Py.str_N n <> EmptyString.
Proof.
  destruct (N.eq_dec n 0) as [-> | Hn]; [discriminate |].
  destruct (str_N_head n Hn) as (c & rest & -> & _). discriminate.
Qed.


Lemma str_int_of_N (n : N) : Py.str_int (Z.of_N n) = Py.str_N n.
Proof.
  unfold Py.str_int. destruct (Z.ltb_spec (Z.of_N n) 0); [lia |].
  now rewrite Zabs2N.id.
Qed.

Lemma decimal_digit_nospace (c : ascii) :
  is_decimal_digit c = true -> Py.isspace c = false.
Proof.
  unfold is_decimal_digit, Py.isspace. intros H.
  apply andb_true_iff in H as [H1 H2].
  apply Nat.leb_le in H1. apply Nat.leb_le in H2.
  repeat match goal with
         | |- context [(?a <=? ?b)%nat] => destruct (Nat.leb_spec a b)
         | |- context [(?a =? ?b)%nat] => destruct (Nat.eqb_spec a b)
         end; simpl; try reflexivity; lia.
Qed.

Lemma str_N_nospace (n : N) : nospace (Py.str_N n).
Proof. intros c Hc. apply decimal_digit_nospace. now apply (str_N_digits n). Qed.

Lemma str_int_nospace (z : Z) : nospace (Py.str_int z).
Proof.
  unfold Py.str_int. destruct (z <? 0)%Z; [| apply str_N_nospace].
  apply nospace_cons. split; [reflexivity | apply str_N_nospace].
Qed.

Lemma str_int_nonempty (z : Z) : Py.str_int z <> EmptyString.
Proof.
  unfold Py.str_int. destruct (z <? 0)%Z; [discriminate | apply str_N_nonempty].
Qed.

(** *** Tokens that [int(s, 2)] rejects *)








(** *** The label computed by [convert_to_decimal] *)


Lemma binary_not_time (x rest : string) :
  x <> EmptyString -> binary_digits x -> ((x ++ rest)%string =? "Time")%string = false.
Proof.
  intros Hne Hx. destruct x as [|c x]; [congruence |].
  apply binary_digits_cons in Hx as [Hc _]. apply String.eqb_neq. intros H.
  simpl in H. inversion H. subst c. discriminate.
Qed.

(** Two non-empty strings of binary digits around one space become the two
    values in decimal around one hyphen. *)
Lemma decimal_label_binary_pair (x y : string) :
  x <> EmptyString -> binary_digits x -> y <> EmptyString -> binary_digits y ->
  decimal_label (x ++ " " ++ y) =
  (Py.str_N (bits_fold 0 x) ++ "-" ++ Py.str_N (bits_fold 0 y))%string.
Proof.
  intros Hx Bx Hy By. unfold decimal_label.
  rewrite binary_not_time by assumption.
  rewrite split_pair by (try assumption; now apply binary_digits_nospace).
  rewrite !int_base2_binary by assumption.
  now rewrite !str_int_of_N.
Qed.

(** A label without whitespace is left as it is. *)
Lemma decimal_label_nospace (s : string) : nospace s -> decimal_label s = s.
Proof.
  intros Hs. unfold decimal_label. destruct (s =? "Time")%string; [reflexivity |].
  destruct s as [|c s]; [reflexivity |].
  now rewrite split_single.
Qed.

Lemma decimal_label_cases (col : string) :
  decimal_label col = col \/
  exists a c, decimal_label col = (Py.str_int a ++ "-" ++ Py.str_int c)%string.
Proof.
  unfold decimal_label. destruct (col =? "Time")%string; [now left |].
  destruct (Py.split col) as [|p1 [|p2 [|p3 ps]]]; try (now left).
  destruct (Py.int_base2 p1) as [a|]; [| now left].
  destruct (Py.int_base2 p2) as [c|]; [| now left].
  right. now exists a, c.
Qed.

Lemma decimal_label_idempotent (col : string) :
  decimal_label (decimal_label col) = decimal_label col.
Proof.
  destruct (decimal_label_cases col) as [H | (a & c & H)]; rewrite H; [exact H |].
  apply decimal_label_nospace.
  apply nospace_app; [apply str_int_nospace |].
  apply nospace_cons. split; [reflexivity | apply str_int_nospace].
Qed.

(** *** The dictionary [new_columns] and [rename] *)

Lemma new_columns_get (cols : list string) (k dflt : string) :
  In k cols -> Pd.dict_get (new_columns cols) k dflt = decimal_label k.
Proof.
  unfold new_columns. induction cols as [|c cols IH] using rev_ind; intros Hin; [destruct Hin |].
  rewrite fold_left_app. simpl. destruct (String.eqb_spec c k) as [-> | Hne]; [reflexivity |].
  apply IH. apply in_app_or in Hin as [Hin | [Hin | []]]; [assumption | congruence].
Qed.

Lemma convert_to_decimal_run (d : Pd.DataFrame) :
  convert_to_decimal (mkRDF d) =
  (mkRDF (Pd.mkDF (Pd.index d)
                  (map (fun c : Pd.column => (decimal_label (fst c), snd c)) (Pd.columns d))),
   Py.ok tt).
Proof.
  unfold convert_to_decimal, bind, self_df, set_self_df. simpl.
  unfold Pd.rename. do 3 f_equal. apply map_ext_in. intros c Hc.
  rewrite new_columns_get; [reflexivity |].
  unfold Pd.labels. now apply in_map.
Qed.

(** ** Filtering columns *)

Lemma for_each_ok {A B : Type} (f : A -> Py.result B) (g : A -> B) (xs : list A) :
  (forall x, In x xs -> f x = Py.ok (g x)) ->
  Py.for_each f xs = Py.ok (map g xs).
Proof.
  induction xs as [|x xs IH]; intros H; simpl; [reflexivity |].
  rewrite (H x) by now left. simpl.
  rewrite IH by (intros y Hy; apply H; now right). reflexivity.
Qed.

Lemma getitem_square (n : nat) (A : Np.ndarray) (i j : nat) :
  square n A -> (i < n)%nat -> (j < n)%nat -> Np.getitem A i j = Py.ok (entry A i j).
Proof.
  intros [Hlen Hrows] Hi Hj. unfold Np.getitem, entry.
  destruct (nth_error A i) as [r|] eqn:Er.
  - rewrite (nth_error_nth _ _ [] Er).
    assert (Hr : List.length r = n).
    { rewrite Forall_forall in Hrows. apply Hrows. eapply nth_error_In, Er. }
    destruct (nth_error r j) as [a|] eqn:Ea.
    + now rewrite (nth_error_nth _ _ 0%Z Ea).
    + apply nth_error_None in Ea. lia.
  - apply nth_error_None in Er. lia.
Qed.

Lemma node_pairs_in (n i j : nat) :
  In (i, j) (node_pairs n) <-> (i < n)%nat /\ (j < n)%nat.
Proof.
  unfold node_pairs, Py.range. rewrite in_prod_iff, !in_seq. lia.
Qed.

Lemma real_connections_ok (n w : nat) (A : Np.ndarray) :
  square n A ->
  real_connections A n w =
  Py.ok (map (fun ij : nat * nat => pair_label w (fst ij) (snd ij))
             (filter (fun ij : nat * nat => negb (entry A (fst ij) (snd ij) =? 0)%Z)
                     (node_pairs n))).
Proof.
  intros Hsq. unfold real_connections.
  rewrite (for_each_ok _ (fun ij : nat * nat => (ij, entry A (fst ij) (snd ij)))).
  - simpl. f_equal. induction (node_pairs n) as [|ij l IH]; simpl; [reflexivity |].
    destruct (negb (entry A (fst ij) (snd ij) =? 0)%Z); simpl; now rewrite IH.
  - intros [i j] Hij. apply node_pairs_in in Hij as [Hi Hj]. simpl.
    now rewrite (getitem_square n A i j Hsq Hi Hj).
Qed.

Lemma filter_filter {A : Type} (p q : A -> bool) (l : list A) :
  filter q (filter p l) = filter (fun x => p x && q x) l.
Proof.
  induction l as [|x l IH]; simpl; [reflexivity |].
  destruct (p x); simpl; [destruct (q x) |]; now rewrite IH.
Qed.

Lemma set_mem_union {A : Type} (f : A -> string) (p q : A -> bool) (l : list A) (col : string) :
  set_mem col (map f (filter (fun x => p x || q x) l)) =
  set_mem col (map f (filter p l)) || set_mem col (map f (filter q l)).
Proof.
  unfold set_mem. induction l as [|x l IH]; simpl; [reflexivity |].
  destruct (p x), (q x); simpl; rewrite IH;
    destruct (col =? f x)%string; simpl;
    repeat rewrite orb_true_r; reflexivity.
Qed.

Lemma set_mem_in (col : string) (s : list string) : set_mem col s = true <-> In col s.
Proof.
  unfold set_mem. rewrite existsb_exists. split.
  - intros (x & Hx & Heq). apply String.eqb_eq in Heq. now subst.
  - intros H. exists col. split; [assumption | apply String.eqb_refl].
Qed.

(** The excluded labels are those of real edges and of self-pairs. *)
Lemma exclusions_spec (A : Np.ndarray) (n w : nat) (col : string) :
  set_mem col (exclusions A n w) = true <-> edge_or_self A n w col.
Proof.
  rewrite set_mem_in. unfold exclusions, edge_or_self. rewrite in_map_iff. split.
  - intros ([i j] & Heq & Hin). apply filter_In in Hin as [Hin Hp].
    apply node_pairs_in in Hin as [Hi Hj]. simpl in *.
    exists i, j. repeat split; try assumption; [| now symmetry].
    apply orb_true_iff in Hp as [Hp | Hp].
    + left. apply negb_true_iff, Z.eqb_neq in Hp. exact Hp.
    + right. now apply Nat.eqb_eq.
  - intros (i & j & Hi & Hj & Hp & ->). exists (i, j). split; [reflexivity |].
    apply filter_In. split; [now apply node_pairs_in |]. simpl.
    apply orb_true_iff. destruct Hp as [Hp | Hp].
    + left. now apply negb_true_iff, Z.eqb_neq.
    + right. now apply Nat.eqb_eq.
Qed.

Lemma filter_no_label (cols : list Pd.column) (l : string) :
  ~ In l (map fst cols) ->
  filter (fun c' : Pd.column => (fst c' =? l)%string) cols = [].
Proof.
  induction cols as [|x cols IH]; intros Hl; simpl; [reflexivity |].
  destruct (String.eqb_spec (fst x) l) as [E | E].
  - exfalso. apply Hl. now left.
  - apply IH. intros H. apply Hl. now right.
Qed.

(** With distinct labels, a label selects exactly its own column. *)
Lemma filter_own_label (cols : list Pd.column) (c : Pd.column) :
  NoDup (map fst cols) -> In c cols ->
  filter (fun c' : Pd.column => (fst c' =? fst c)%string) cols = [c].
Proof.
  induction cols as [|x cols IH]; intros Hnd Hin; [destruct Hin |].
  inversion Hnd as [|? ? Hx Hnd']; subst. simpl.
  destruct Hin as [-> | Hin].
  - rewrite String.eqb_refl. f_equal. now apply filter_no_label.
  - destruct (String.eqb_spec (fst x) (fst c)) as [E | E].
    + exfalso. apply Hx. rewrite E. now apply in_map.
    + now apply IH.
Qed.

Lemma has_label_in (l : string) (ls : list string) : Pd.has_label l ls = true <-> In l ls.
Proof.
  unfold Pd.has_label. rewrite existsb_exists. split.
  - intros (x & Hx & Heq). apply String.eqb_eq in Heq. now subst.
  - intros H. exists l. split; [assumption | apply String.eqb_refl].
Qed.

Lemma keys_present (p : string -> bool) (ls : list string) :
  forallb (fun k => Pd.has_label k ls) (filter p ls) = true.
Proof.
  apply forallb_forall. intros k Hk. apply filter_In in Hk as [Hk _].
  now apply has_label_in.
Qed.

Lemma select_filtered (p : string -> bool) (all cols : list Pd.column) :
  NoDup (map fst all) -> incl cols all ->
  flat_map (fun k => filter (fun c : Pd.column => (fst c =? k)%string) all)
           (filter p (map fst cols)) =
  filter (fun c : Pd.column => p (fst c)) cols.
Proof.
  intros Hnd. induction cols as [|c cols IH]; intros Hincl; simpl; [reflexivity |].
  assert (Hc : In c all) by (apply Hincl; now left).
  assert (Hrest : incl cols all) by (intros x Hx; apply Hincl; now right).
  destruct (p (fst c)); simpl; rewrite IH by assumption; [| reflexivity].
  now rewrite filter_own_label.
Qed.

(** [df[keys]] for keys drawn in order from distinct labels keeps exactly
    the columns whose label passes the test. *)
Lemma getitem_filtered (p : string -> bool) (d : Pd.DataFrame) :
  NoDup (Pd.labels d) ->
  Pd.getitem d (filter p (Pd.labels d)) =
  Py.ok (Pd.mkDF (Pd.index d) (filter (fun c : Pd.column => p (fst c)) (Pd.columns d))).
Proof.
  intros Hnd. unfold Pd.getitem. rewrite keys_present.
  unfold Pd.labels. rewrite select_filtered; [reflexivity | assumption | apply incl_refl].
Qed.

Lemma filter_with_bits_run (A : Np.ndarray) (n w : nat) (d : Pd.DataFrame) :
  square n A -> NoDup (Pd.labels d) ->
  filter_with_bits A n w (mkRDF d) =
  (mkRDF (Pd.mkDF (Pd.index d) (filter (kept A n w) (Pd.columns d))), Py.ok tt).
Proof.
  intros Hsq Hnd. unfold filter_with_bits, bind, eval, self_df, set_self_df.
  rewrite (real_connections_ok n w A Hsq). cbn [Py.ok df].
  rewrite filter_filter.
  rewrite (filter_ext _ (fun col => negb (set_mem col (exclusions A n w)))).
  - rewrite getitem_filtered by assumption. reflexivity.
  - intros col. unfold exclusions, same_nodes.
    rewrite set_mem_union. now rewrite negb_orb.
Qed.

Lemma filter_connected_columns_run (A : Np.ndarray) (n : nat) (d : Pd.DataFrame) :
  (1 <= n)%nat -> square n A -> NoDup (Pd.labels d) ->
  filter_connected_columns A (mkRDF d) =
  (mkRDF (Pd.mkDF (Pd.index d) (filter (kept A n (Nat.log2_up n)) (Pd.columns d))),
   Py.ok tt).
Proof.
  intros Hn Hsq Hnd. unfold filter_connected_columns.
  assert (Hlen : Np.len A = n) by apply Hsq. rewrite Hlen.
  unfold bind at 1. unfold eval at 1.
  destruct n as [|n]; [lia |]. cbn [Py.ceil_log2 Py.ok].
  now apply filter_with_bits_run.
Qed.

(** No pair label is ['Time']: it starts with a binary digit. *)
Lemma pair_label_not_time (w i j : nat) : pair_label w i j <> "Time".
Proof.
  unfold pair_label. apply String.eqb_neq, binary_not_time;
    [apply format_0b_nonempty | apply binary_digits_format_0b].
Qed.

Lemma kept_time (A : Np.ndarray) (n w : nat) (cells : list Pd.cell) :
  kept A n w ("Time", cells) = true.
Proof.
  unfold kept. apply negb_true_iff. apply not_true_is_false. intros H.
  apply exclusions_spec in H as (i & j & _ & _ & _ & H). simpl in H.
  symmetry in H. now apply pair_label_not_time in H.
Qed.

(** ** Summary rows *)

Lemma numeric_values (cs : list Pd.cell) :
  no_str cs -> Pd.numeric cs = Py.ok (values cs).
Proof.
  induction cs as [|c cs IH]; intros H; simpl; [reflexivity |].
  assert (Hcs : no_str cs) by (intros s Hs; apply (H s); now right).
  destruct c as [q | | s].
  - rewrite IH by assumption. reflexivity.
  - now apply IH.
  - exfalso. apply (H s). now left.
Qed.

Lemma reduce_ok (f : list Q -> Pd.cell) (idx : list Z) (cols : list Pd.column) :
  Forall (fun c : Pd.column => no_str (snd c)) cols ->
  Pd.reduce f (Pd.mkDF idx cols) =
  Py.ok (map (fun c : Pd.column => (fst c, f (values (snd c)))) cols).
Proof.
  intros H. unfold Pd.reduce. cbn [Pd.columns]. apply for_each_ok.
  intros c Hc. rewrite Forall_forall in H. now rewrite numeric_values by auto.
Qed.

Lemma drop_time_first (idx : list Z) (t : list Pd.cell) (rest : list Pd.column) :
  ~ In "Time" (map fst rest) ->
  Pd.drop "Time" (Pd.mkDF idx (("Time", t) :: rest)) = Py.ok (Pd.mkDF idx rest).
Proof.
  intros Hnot. unfold Pd.drop. simpl. f_equal. f_equal.
  induction rest as [|c rest IH]; simpl; [reflexivity |].
  destruct (String.eqb_spec (fst c) "Time") as [E | E].
  - exfalso. apply Hnot. now left.
  - simpl. rewrite IH; [reflexivity |]. intros H. apply Hnot. now right.
Qed.

Lemma loc_setitem_run (idx : list Z) (cols : list Pd.column) (l : Z) (r : list Pd.cell) :
  List.length r = List.length cols ->
  Pd.loc_setitem (Pd.mkDF idx cols) l r =
  Py.ok (Pd.mkDF (index_after idx l)
                 (map (fun cv : Pd.column * Pd.cell =>
                         (fst (fst cv), cells_after idx l (snd cv) (snd (fst cv))))
                      (combine cols r))).
Proof.
  intros Hlen. unfold Pd.loc_setitem, index_after, cells_after. cbn [Pd.columns Pd.index].
  rewrite Hlen, Nat.eqb_refl. now destruct (existsb (Z.eqb l) idx).
Qed.

Lemma combine_series {A B C : Type} (h : A -> C) (f : A -> B) (name : A -> string)
      (l : list A) :
  combine (map h l) (map snd (map (fun a => (name a, f a)) l)) =
  map (fun a => (h a, f a)) l.
Proof. induction l as [|a l IH]; simpl; [reflexivity | now rewrite IH]. Qed.

Lemma combine_series_id {A B : Type} (f : A -> B) (name : A -> string) (l : list A) :
  combine l (map snd (map (fun a => (name a, f a)) l)) = map (fun a => (a, f a)) l.
Proof. induction l as [|a l IH]; simpl; [reflexivity | now rewrite IH]. Qed.

(** Steps through the binds of a method whose next call is known. *)
Ltac step_method :=
  unfold bind, eval, self_df, set_self_df, ret, Py.ok, Py.raise, Pd.copy;
  cbn [df Pd.index Pd.columns].

(** The frame after [add_max_and_avg] when ['Time'] is the first column and
    labels no other one, and no other column holds a string. *)
Lemma add_max_and_avg_run (idx : list Z) (t : list Pd.cell) (rest : list Pd.column) :
  ~ In "Time" (map fst rest) ->
  Forall (fun c : Pd.column => no_str (snd c)) rest ->
  add_max_and_avg (mkRDF (Pd.mkDF idx (("Time", t) :: rest))) =
  (mkRDF (Pd.mkDF
            (index_after (index_after idx (Z.of_nat (List.length idx)))
                         (Z.of_nat (List.length (index_after idx (Z.of_nat (List.length idx))))))
            (summarised idx (Pd.Str "P-max") (Pd.Str "P-avg") ("Time", t)
             :: map (summarised_data idx) rest)),
   Py.ok tt).
Proof.
  intros Hnot Hnum. unfold add_max_and_avg. step_method.
  rewrite drop_time_first by assumption. step_method.
  unfold Pd.max, Pd.mean. rewrite !reduce_ok by assumption. step_method.
  unfold Pd.len, Pd.tolist. cbn [Pd.index].
  rewrite loc_setitem_run by (cbn [List.length]; now rewrite !length_map).
  step_method. cbn [combine map fst snd].
  rewrite combine_series_id, map_map. cbn [fst snd].
  rewrite loc_setitem_run by (cbn [List.length]; now rewrite !length_map).
  step_method. cbn [combine map fst snd].
  rewrite combine_series, map_map. cbn [fst snd].
  reflexivity.
Qed.

(** *** The reductions *)









(** *** Writing at unused labels appends *)

Lemma label_unused (l : Z) (idx : list Z) :
  ~ In l idx -> existsb (Z.eqb l) idx = false.
Proof.
  intros H. apply not_true_is_false. intros E.
  apply existsb_exists in E as (x & Hx & Heq). apply Z.eqb_eq in Heq. now subst.
Qed.

Lemma summarised_fresh (idx : list Z) (vmax vavg : Pd.cell) (c : Pd.column) :
  fresh_labels idx -> summarised idx vmax vavg c = (fst c, snd c ++ [vmax; vavg]).
Proof.
  intros [H1 H2]. unfold summarised, cells_after, index_after.
  rewrite (label_unused _ _ H1). rewrite label_unused.
  - now rewrite <- app_assoc.
  - rewrite length_app, Nat.add_1_r. intros H.
    apply in_app_or in H as [H | [H | []]]; [now apply H2 | lia].
Qed.

Lemma index_fresh (idx : list Z) :
  fresh_labels idx ->
  index_after (index_after idx (Z.of_nat (List.length idx)))
              (Z.of_nat (List.length (index_after idx (Z.of_nat (List.length idx))))) =
  idx ++ [Z.of_nat (List.length idx); Z.of_nat (S (List.length idx))].
Proof.
  intros [H1 H2]. unfold index_after. rewrite (label_unused _ _ H1).
  rewrite length_app, Nat.add_1_r. rewrite label_unused.
  - now rewrite <- app_assoc.
  - intros H. apply in_app_or in H as [H | [H | []]]; [now apply H2 | lia].
Qed.

(** The default labels [0 .. m-1] leave [m] and [m + 1] unused. *)
Lemma range_index_fresh (m : nat) : fresh_labels (map Z.of_nat (seq 0 m)).
Proof.
  unfold fresh_labels. rewrite length_map, length_seq.
  split; intros H; apply in_map_iff in H as (k & Hk & Hin); apply in_seq in Hin; lia.
Qed.

(** ** Properties of [filter_connected_columns] *)

(** C1.  For an [n] by [n] adjacency matrix [A] with [n >= 1] and a table
    with one column per label, [filter_connected_columns] succeeds and
    removes exactly the columns whose label encodes, at
    [ceil(log2(n))] bits, a pair [(i, j)] with [A[i][j] != 0] or a self-pair
    [(i, i)]; the ['Time'] column is retained, the remaining columns keep
    their order and content, and the row labels are unchanged. *)
Theorem filter_connected_columns_removes_edges_and_self_pairs
  (A : Np.ndarray) (n : nat) (d : Pd.DataFrame) :
  (1 <= n)%nat -> square n A -> NoDup (Pd.labels d) ->
  exists d',
    filter_connected_columns A (mkRDF d) = (mkRDF d', Py.ok tt) /\
    Pd.index d' = Pd.index d /\
    Pd.columns d' = filter (kept A n (Nat.log2_up n)) (Pd.columns d) /\
    (forall c, In c (Pd.columns d) ->
       (In c (Pd.columns d') <-> ~ edge_or_self A n (Nat.log2_up n) (fst c))) /\
    (forall c, In c (Pd.columns d') -> In c (Pd.columns d)) /\
    (forall cells, In ("Time", cells) (Pd.columns d) ->
                   In ("Time", cells) (Pd.columns d')).
Proof.
  intros Hn Hsq Hnd. eexists. split; [now apply (filter_connected_columns_run A n) |].
  cbn [Pd.index Pd.columns]. repeat split.
  - intros Hin. apply filter_In in Hin as [_ Hk]. intros He.
    apply exclusions_spec in He. unfold kept in Hk. rewrite He in Hk. discriminate.
  - intros Hne. apply filter_In. split; [assumption |].
    unfold kept. apply negb_true_iff, not_true_is_false. intros He.
    apply Hne. now apply exclusions_spec.
  - intros c Hc. now apply filter_In in Hc as [Hc _].
  - intros cells Hin. apply filter_In. split; [assumption | apply kept_time].
Qed.

Lemma filter_connected_columns_removes_edges_and_self_pairs_witness :
  (1 <= 4)%nat /\ square 4 example_adjacency /\ NoDup (Pd.labels example_table) /\
  exists d',
    filter_connected_columns example_adjacency (mkRDF example_table) = (mkRDF d', Py.ok tt) /\
    Pd.index d' = Pd.index example_table /\
    Pd.columns d' = filter (kept example_adjacency 4 (Nat.log2_up 4)) (Pd.columns example_table) /\
    (forall c, In c (Pd.columns example_table) ->
       (In c (Pd.columns d') <-> ~ edge_or_self example_adjacency 4 (Nat.log2_up 4) (fst c))) /\
    (forall c, In c (Pd.columns d') -> In c (Pd.columns example_table)) /\
    (forall cells, In ("Time", cells) (Pd.columns example_table) ->
                   In ("Time", cells) (Pd.columns d')).
Proof.
  assert (H1 : (1 <= 4)%nat) by lia.
  assert (H2 : square 4 example_adjacency)
    by (split; [reflexivity | repeat constructor]).
  assert (H3 : NoDup (Pd.labels example_table))
    by (repeat constructor; simpl; intuition discriminate).
  refine (conj H1 (conj H2 (conj H3 _))).
  exact (filter_connected_columns_removes_edges_and_self_pairs
           example_adjacency 4 example_table H1 H2 H3).
Defined.

(** On the example, the edges 0 -> 1 and 2 -> 3 are dropped. *)
Example filter_example :
  filter_connected_columns example_adjacency (mkRDF example_table) =
  (mkRDF (Pd.mkDF [0; 1]%Z
            [("Time", [Pd.Num 0; Pd.Num 1]);
             ("00 10", [Pd.Num (5 # 10); Pd.Num (1 # 10)]);
             ("01 10", [Pd.Num (1 # 10); Pd.Num (4 # 10)])]),
   Py.ok tt).
Proof. reflexivity. Qed.



(** ** Properties of [add_max_and_avg] *)

Lemma nth_error_map_some {A B : Type} (f : A -> B) (l : list A) (k : nat) (a : A) :
  nth_error l k = Some a -> nth_error (map f l) k = Some (f a).
Proof. intros H. now rewrite nth_error_map, H. Qed.

Lemma rectangular_cons (idx : list Z) (c : Pd.column) (cols : list Pd.column) :
  rectangular (Pd.mkDF idx (c :: cols)) ->
  List.length (snd c) = List.length idx /\
  forall x, In x cols -> List.length (snd x) = List.length idx.
Proof.
  unfold rectangular, Pd.len. cbn [Pd.columns Pd.index]. intros H.
  inversion H as [|? ? Hc Hcols]; subst. split; [assumption |].
  now apply Forall_forall.
Qed.

(** The frame after [add_max_and_avg] on a table with ['Time'] first and
    the next two row labels unused: every column grows by its two cells. *)
Lemma add_max_and_avg_appends (idx : list Z) (t : list Pd.cell) (rest : list Pd.column) :
  ~ In "Time" (map fst rest) ->
  Forall (fun c : Pd.column => no_str (snd c)) rest ->
  fresh_labels idx ->
  add_max_and_avg (mkRDF (Pd.mkDF idx (("Time", t) :: rest))) =
  (mkRDF (Pd.mkDF
            (idx ++ [Z.of_nat (List.length idx); Z.of_nat (S (List.length idx))])
            (("Time", t ++ [Pd.Str "P-max"; Pd.Str "P-avg"])
             :: map (fun c : Pd.column =>
                       (fst c, snd c ++ [Pd.max_of (values (snd c));
                                         Pd.mean_of (values (snd c))]))
                    rest)),
   Py.ok tt).
Proof.
  intros Hnot Hnum Hfresh. rewrite add_max_and_avg_run by assumption.
  rewrite index_fresh, summarised_fresh by assumption. do 4 f_equal.
  apply map_ext. intros c. unfold summarised_data. now apply summarised_fresh.
Qed.




(** C3 (as amended).  For a table whose first column is ['Time'] and labels
    no other column, whose other columns hold no string, with the row labels
    [m] and [m + 1] unused, the two rows appended by [add_max_and_avg] hold
    ["P-max"] and then ["P-avg"] in their ['Time'] cell. *)
Theorem add_max_and_avg_sentinels
  (idx : list Z) (t : list Pd.cell) (rest : list Pd.column) :
  let d := Pd.mkDF idx (("Time", t) :: rest) in
  rectangular d ->
  ~ In "Time" (map fst rest) ->
  Forall (fun c : Pd.column => no_str (snd c)) rest ->
  fresh_labels idx ->
  exists d',
    add_max_and_avg (mkRDF d) = (mkRDF d', Py.ok tt) /\
    Pd.len d' = (Pd.len d + 2)%nat /\
    cell_at d' "Time" (Pd.len d) = Some (Pd.Str "P-max") /\
    cell_at d' "Time" (S (Pd.len d)) = Some (Pd.Str "P-avg").
Proof.
  intros d Hrect Hnot Hnum Hfresh. subst d.
  destruct (rectangular_cons _ _ _ Hrect) as [Ht _]. cbn [snd] in Ht.
  eexists. split; [now apply add_max_and_avg_appends |].
  unfold Pd.len, cell_at. cbn [Pd.index Pd.columns find fst snd]. rewrite String.eqb_refl.
  cbn [snd]. repeat split.
  - rewrite length_app. reflexivity.
  - rewrite nth_error_app2 by lia. now rewrite Ht, Nat.sub_diag.
  - rewrite nth_error_app2 by lia. rewrite Ht.
    replace (S (List.length idx) - List.length idx)%nat with 1%nat by lia. reflexivity.
Qed.

Lemma add_max_and_avg_sentinels_witness :
  let d := example_table in
  exists d',
    add_max_and_avg (mkRDF d) = (mkRDF d', Py.ok tt) /\
    Pd.len d' = (Pd.len d + 2)%nat /\
    cell_at d' "Time" (Pd.len d) = Some (Pd.Str "P-max") /\
    cell_at d' "Time" (S (Pd.len d)) = Some (Pd.Str "P-avg").
Proof.
  apply (add_max_and_avg_sentinels [0; 1]%Z [Pd.Num 0; Pd.Num 1]
           (tl (Pd.columns example_table))).
  - repeat constructor.
  - simpl. intuition discriminate.
  - repeat constructor; intros s; simpl; intuition discriminate.
  - split; simpl; intuition discriminate.
Defined.

(** C3, as stated, fails when ['Time'] is the second column: the sentinels
    land in the first column and the ['Time'] cells of the two new rows hold
    the first column's maximum and mean. *)
Lemma add_max_and_avg_time_second_sentinels :
  In "Time" (Pd.labels time_second_table) /\
  exists d',
    add_max_and_avg (mkRDF time_second_table) = (mkRDF d', Py.ok tt) /\
    cell_at d' "Time" 2 = Some (Pd.Num (8 # 10)) /\
    cell_at d' "Time" 2 <> Some (Pd.Str "P-max") /\
    cell_at d' "Time" 3 <> Some (Pd.Str "P-avg").
Proof.
  split; [simpl; auto |].
  eexists. split; [reflexivity |]. repeat split; discriminate.
Qed.

Lemma drop_missing (label : string) (d : Pd.DataFrame) :
  ~ In label (Pd.labels d) -> Pd.drop label d = Py.raise Py.KeyError.
Proof.
  intros H. unfold Pd.drop.
  destruct (Pd.has_label label (Pd.labels d)) eqn:E; [| reflexivity].
  apply has_label_in in E. contradiction.
Qed.

Lemma add_max_and_avg_untimed (self : ResultsDataframe) :
  ~ In "Time" (Pd.labels (df self)) ->
  add_max_and_avg self = (mkRDF (Pd.copy (df self)), Py.raise Py.KeyError).
Proof.
  intros H. unfold add_max_and_avg.
  unfold bind, eval, self_df, set_self_df. cbn [df Py.ok].
  rewrite drop_missing; [reflexivity | exact H].
Qed.

(** C6.  On a table without a column labelled ['Time'], [add_max_and_avg]
    raises [KeyError]; it does not succeed. *)
Theorem add_max_and_avg_requires_time (self : ResultsDataframe) :
  ~ In "Time" (Pd.labels (df self)) ->
  snd (add_max_and_avg self) = Py.raise Py.KeyError /\
  snd (add_max_and_avg self) <> Py.ok tt.
Proof.
  intros H. rewrite add_max_and_avg_untimed by assumption. split; [reflexivity | discriminate].
Qed.

Lemma add_max_and_avg_requires_time_witness :
  ~ In "Time" (Pd.labels untimed_table) /\
  snd (add_max_and_avg (mkRDF untimed_table)) = Py.raise Py.KeyError /\
  snd (add_max_and_avg (mkRDF untimed_table)) <> Py.ok tt.
Proof.
  assert (H : ~ In "Time" (Pd.labels (df (mkRDF untimed_table))))
    by (simpl; intuition discriminate).
  exact (conj H (add_max_and_avg_requires_time (mkRDF untimed_table) H)).
Defined.

(** C10.  When [add_max_and_avg] raises because no column is labelled
    ['Time'], the instance holds a frame with the same row labels, the same
    columns and the same cells as before the call: no row was added and no
    value changed. *)
Theorem add_max_and_avg_failure_is_atomic (self : ResultsDataframe) :
  ~ In "Time" (Pd.labels (df self)) ->
  exists self' e,
    add_max_and_avg self = (self', Py.raise e) /\
    df self' = df self /\
    Pd.len (df self') = Pd.len (df self).
Proof.
  intros H. exists (mkRDF (Pd.copy (df self))), Py.KeyError.
  split; [now apply add_max_and_avg_untimed |].
  cbn [df]. unfold Pd.copy. destruct (df self) as [idx cols]. split; reflexivity.
Qed.

Lemma add_max_and_avg_failure_is_atomic_witness :
  ~ In "Time" (Pd.labels untimed_table) /\
  exists self' e,
    add_max_and_avg (mkRDF untimed_table) = (self', Py.raise e) /\
    df self' = untimed_table /\
    Pd.len (df self') = Pd.len untimed_table.
Proof.
  assert (H : ~ In "Time" (Pd.labels (df (mkRDF untimed_table))))
    by (simpl; intuition discriminate).
  exact (conj H (add_max_and_avg_failure_is_atomic (mkRDF untimed_table) H)).
Defined.

(** ** Filtering and summarising *)


Lemma labels_filter_incl (p : Pd.column -> bool) (cols : list Pd.column) (l : string) :
  In l (map fst (filter p cols)) -> In l (map fst cols).
Proof.
  intros H. apply in_map_iff in H as (c & <- & Hc). apply filter_In in Hc as [Hc _].
  now apply in_map.
Qed.

Lemma nodup_filter_labels (p : Pd.column -> bool) (cols : list Pd.column) :
  NoDup (map fst cols) -> NoDup (map fst (filter p cols)).
Proof.
  induction cols as [|c cols IH]; intros H; simpl; [constructor |].
  inversion H as [|? ? Hc Hcols]; subst.
  destruct (p c); simpl; [| now apply IH].
  constructor; [| now apply IH]. intros Hin. apply Hc. now apply labels_filter_incl in Hin.
Qed.




(** ** Properties of [convert_to_decimal] *)








(** C8.  [convert_to_decimal] is idempotent: it always succeeds, and a
    second call leaves the frame - in particular every column label - as
    the first call made it. *)
Theorem convert_to_decimal_idempotent (d : Pd.DataFrame) :
  exists d1,
    convert_to_decimal (mkRDF d) = (mkRDF d1, Py.ok tt) /\
    convert_to_decimal (mkRDF d1) = (mkRDF d1, Py.ok tt) /\
    (convert_to_decimal ;; convert_to_decimal) (mkRDF d) = convert_to_decimal (mkRDF d) /\
    Pd.labels d1 = map decimal_label (Pd.labels d) /\
    map decimal_label (Pd.labels d1) = Pd.labels d1.
Proof.
  assert (Htwice : forall cols : list Pd.column,
            map (fun c : Pd.column => (decimal_label (fst c), snd c))
                (map (fun c : Pd.column => (decimal_label (fst c), snd c)) cols) =
            map (fun c : Pd.column => (decimal_label (fst c), snd c)) cols).
  { intros cols. rewrite map_map. apply map_ext. intros c. cbn [fst snd].
    now rewrite decimal_label_idempotent. }
  eexists. split; [apply convert_to_decimal_run |].
  assert (Hsecond : forall d0,
            convert_to_decimal
              (mkRDF (Pd.mkDF (Pd.index d0)
                        (map (fun c : Pd.column => (decimal_label (fst c), snd c))
                             (Pd.columns d0)))) =
            (mkRDF (Pd.mkDF (Pd.index d0)
                      (map (fun c : Pd.column => (decimal_label (fst c), snd c))
                           (Pd.columns d0))), Py.ok tt)).
  { intros d0. rewrite convert_to_decimal_run. cbn [Pd.index Pd.columns].
    now rewrite Htwice. }
  split; [apply Hsecond |]. split.
  - unfold bind. rewrite convert_to_decimal_run. apply Hsecond.
  - unfold Pd.labels. cbn [Pd.columns]. rewrite !map_map. cbn [fst]. split; [reflexivity |].
    apply map_ext. intros c. apply decimal_label_idempotent.
Qed.

(** The worked example of the pipeline. *)
Example postprocess_superposition_example :
  exists d',
    postprocess_superposition example_adjacency (mkRDF example_table) = (mkRDF d', Py.ok tt) /\
    Pd.labels d' = ["Time"; "0-2"; "1-2"] /\
    Pd.index d' = [0; 1; 2; 3]%Z /\
    cell_at d' "Time" 2 = Some (Pd.Str "P-max") /\
    cell_at d' "Time" 3 = Some (Pd.Str "P-avg") /\
    cell_at d' "0-2" 2 = Some (Pd.Num (5 # 10)) /\
    cell_at d' "1-2" 2 = Some (Pd.Num (4 # 10)).
Proof. eexists. split; [lazy; reflexivity |]. repeat split. Qed.

(** ** Further properties of [filter_connected_columns] *)

Lemma for_each_raise {A B : Type} (f : A -> Py.result B) (e : Py.exn) (xs : list A) :
  (forall x, In x xs -> (exists y, f x = Py.ok y) \/ f x = Py.raise e) ->
  (exists x, In x xs /\ f x = Py.raise e) ->
  Py.for_each f xs = Py.raise e.
Proof.
  induction xs as [|x xs IH]; intros Hall (x0 & Hin & Hx0); [destruct Hin |].
  simpl. destruct (Hall x (or_introl eq_refl)) as [(y & Hy) | Hx].
  - rewrite Hy. simpl. destruct Hin as [-> | Hin].
    + rewrite Hy in Hx0. discriminate.
    + rewrite IH; [reflexivity | | now exists x0].
      intros z Hz. apply Hall. now right.
  - now rewrite Hx.
Qed.

Lemma getitem_ok_or_index_error (A : Np.ndarray) (i j : nat) :
  (exists a, Np.getitem A i j = Py.ok a) \/ Np.getitem A i j = Py.raise Py.IndexError.
Proof.
  unfold Np.getitem. destruct (nth_error A i) as [r|]; [| now right].
  destruct (nth_error r j) as [a|]; [left; now exists a | now right].
Qed.

(** X1.  A malformed adjacency array makes [filter_connected_columns]
    raise before it touches the frame: an empty array raises [ValueError]
    (the logarithm of 0), an array of [n >= 1] rows that are only [m < n]
    long raises [IndexError]. *)
Theorem filter_connected_columns_rejects_malformed
  (A : Np.ndarray) (n m : nat) (self : ResultsDataframe) :
  (1 <= n)%nat -> (m < n)%nat ->
  List.length A = n -> Forall (fun r => List.length r = m) A ->
  filter_connected_columns [] self = (self, Py.raise Py.ValueError) /\
  filter_connected_columns A self = (self, Py.raise Py.IndexError).
Proof.
  intros Hn Hm Hlen Hrows. split; [reflexivity |].
  unfold filter_connected_columns. unfold Np.len. rewrite Hlen.
  unfold bind at 1. unfold eval at 1.
  destruct n as [|n']; [lia |]. cbn [Py.ceil_log2 Py.ok].
  set (n := S n') in *. set (w := Nat.log2_up n).
  unfold filter_with_bits. unfold bind at 1. unfold eval at 1.
  assert (Hreal : real_connections A n w = Py.raise Py.IndexError).
  { unfold real_connections.
    rewrite (for_each_raise _ Py.IndexError); [reflexivity | |].
    - intros [i j] _. cbn [fst snd].
      destruct (getitem_ok_or_index_error A i j) as [(a & ->) | ->];
        [left; eexists; reflexivity | now right].
    - exists (0%nat, m). split; [apply node_pairs_in; lia |]. cbn [fst snd].
      unfold Np.getitem. destruct A as [|r A']; [simpl in Hlen; lia |].
      cbn [nth_error]. inversion Hrows as [|? ? Hr _]; subst.
      assert (E : nth_error r (List.length r) = None) by (apply nth_error_None; lia).
      now rewrite E. }
  now rewrite Hreal.
Qed.

Lemma filter_connected_columns_rejects_malformed_witness :
  filter_connected_columns [] (mkRDF example_table)
    = (mkRDF example_table, Py.raise Py.ValueError) /\
  filter_connected_columns [[0; 1]; [1; 0]; [0; 0]]%Z (mkRDF example_table)
    = (mkRDF example_table, Py.raise Py.IndexError).
Proof.
  apply (filter_connected_columns_rejects_malformed
           [[0; 1]; [1; 0]; [0; 0]]%Z 3 2 (mkRDF example_table)).
  - lia.
  - lia.
  - reflexivity.
  - repeat constructor.
Defined.

Lemma filter_with_bits_run_any (A : Np.ndarray) (n w : nat) (d : Pd.DataFrame) :
  square n A ->
  filter_with_bits A n w (mkRDF d) =
  (mkRDF (Pd.mkDF (Pd.index d)
            (flat_map (fun k => filter (fun c : Pd.column => (fst c =? k)%string)
                                       (Pd.columns d))
                      (filter (fun col => negb (set_mem col (exclusions A n w)))
                              (Pd.labels d)))),
   Py.ok tt).
Proof.
  intros Hsq. unfold filter_with_bits, bind, eval, self_df, set_self_df.
  rewrite (real_connections_ok n w A Hsq). cbn [Py.ok df].
  rewrite filter_filter.
  rewrite (filter_ext _ (fun col => negb (set_mem col (exclusions A n w)))).
  - unfold Pd.getitem. rewrite keys_present. reflexivity.
  - intros col. unfold exclusions, same_nodes.
    rewrite set_mem_union. now rewrite negb_orb.
Qed.

(** X2.  For a square adjacency array the filter succeeds on every frame,
    repeated labels included: the row labels are unchanged, every remaining
    column is a column of the input, no remaining label encodes an edge or a
    self-pair, and every input column whose label encodes neither remains. *)
Theorem filter_connected_columns_never_keeps_an_edge
  (A : Np.ndarray) (n : nat) (d : Pd.DataFrame) :
  (1 <= n)%nat -> square n A ->
  exists d',
    filter_connected_columns A (mkRDF d) = (mkRDF d', Py.ok tt) /\
    Pd.index d' = Pd.index d /\
    (forall c, In c (Pd.columns d') ->
               In c (Pd.columns d) /\ ~ edge_or_self A n (Nat.log2_up n) (fst c)) /\
    (forall c, In c (Pd.columns d) -> ~ edge_or_self A n (Nat.log2_up n) (fst c) ->
               In c (Pd.columns d')).
Proof.
  intros Hn Hsq. eexists. split.
  { unfold filter_connected_columns.
    assert (Hlen : Np.len A = n) by apply Hsq. rewrite Hlen.
    unfold bind at 1. unfold eval at 1.
    destruct n as [|n']; [lia |]. cbn [Py.ceil_log2 Py.ok].
    now apply filter_with_bits_run_any. }
  cbn [Pd.index Pd.columns]. split; [reflexivity |]. split.
  - intros c Hc. apply in_flat_map in Hc as (k & Hk & Hc).
    apply filter_In in Hc as [Hc Hkc]. apply String.eqb_eq in Hkc. subst k.
    split; [assumption |]. apply filter_In in Hk as [_ Hk].
    intros He. apply exclusions_spec in He. rewrite He in Hk. discriminate.
  - intros c Hc Hne. apply in_flat_map. exists (fst c). split.
    + apply filter_In. split; [unfold Pd.labels; now apply in_map |].
      apply negb_true_iff, not_true_is_false. intros He. apply Hne.
      now apply exclusions_spec.
    + apply filter_In. split; [assumption | apply String.eqb_refl].
Qed.

Lemma filter_connected_columns_never_keeps_an_edge_witness :
  let d := Pd.mkDF [0]%Z [("00 01", [Pd.Num 1]); ("00 10", [Pd.Num 0]);
                          ("00 10", [Pd.Num (1 # 2)])] in
  exists d',
    filter_connected_columns example_adjacency (mkRDF d) = (mkRDF d', Py.ok tt) /\
    Pd.index d' = Pd.index d /\
    (forall c, In c (Pd.columns d') ->
               In c (Pd.columns d) /\ ~ edge_or_self example_adjacency 4 (Nat.log2_up 4) (fst c)) /\
    (forall c, In c (Pd.columns d) -> ~ edge_or_self example_adjacency 4 (Nat.log2_up 4) (fst c) ->
               In c (Pd.columns d')).
Proof.
  intros d. apply (filter_connected_columns_never_keeps_an_edge example_adjacency 4 d).
  - lia.
  - split; [reflexivity | repeat constructor].
Defined.

Lemma filter_kept_twice (p : Pd.column -> bool) (cols : list Pd.column) :
  filter p (filter p cols) = filter p cols.
Proof.
  rewrite filter_filter. apply filter_ext. intros c. now destruct (p c).
Qed.

(** X3.  Filtering is idempotent: on a frame with one column per label
    and a square adjacency array, a second [filter_connected_columns] with
    the same array changes nothing. *)
Theorem filter_connected_columns_idempotent
  (A : Np.ndarray) (n : nat) (d : Pd.DataFrame) :
  (1 <= n)%nat -> square n A -> NoDup (Pd.labels d) ->
  (filter_connected_columns A ;; filter_connected_columns A) (mkRDF d) =
  filter_connected_columns A (mkRDF d).
Proof.
  intros Hn Hsq Hnd. unfold bind.
  rewrite (filter_connected_columns_run A n d) by assumption.
  rewrite (filter_connected_columns_run A n).
  - cbn [Pd.index Pd.columns]. now rewrite filter_kept_twice.
  - assumption.
  - assumption.
  - unfold Pd.labels. cbn [Pd.columns]. now apply nodup_filter_labels.
Qed.

Lemma filter_connected_columns_idempotent_witness :
  (filter_connected_columns example_adjacency ;; filter_connected_columns example_adjacency)
    (mkRDF example_table) =
  filter_connected_columns example_adjacency (mkRDF example_table).
Proof.
  apply (filter_connected_columns_idempotent example_adjacency 4 example_table).
  - lia.
  - split; [reflexivity | repeat constructor].
  - repeat constructor; simpl; intuition discriminate.
Defined.

(** ** Labels: width and injectivity *)

Lemma node_below_width (n i : nat) :
  (2 <= n)%nat -> (i < n)%nat ->
  (1 <= Nat.log2_up n)%nat /\ (N.of_nat i < 2 ^ N.of_nat (Nat.log2_up n))%N.
Proof.
  intros Hn Hi. destruct (Nat.log2_up_spec n) as [_ Hup]; [lia |].
  split.
  - apply Nat.log2_up_pos. lia.
  - change 2%N with (N.of_nat 2). rewrite <- Nat2N.inj_pow. lia.
Qed.

(** X4.  The width [ceil(log2(n))] is enough for every node: for
    [n >= 2] each label the filter builds has exactly [num_bits] binary
    digits on either side of its single space. *)
Theorem pair_label_fixed_width (n i j : nat) :
  (2 <= n)%nat -> (i < n)%nat -> (j < n)%nat ->
  let num_bits := Nat.log2_up n in
  String.length (Py.format_0b num_bits (N.of_nat i)) = num_bits /\
  String.length (Py.format_0b num_bits (N.of_nat j)) = num_bits /\
  String.length (pair_label num_bits i j) = (2 * num_bits + 1)%nat /\
  Py.split (pair_label num_bits i j) =
    [Py.format_0b num_bits (N.of_nat i); Py.format_0b num_bits (N.of_nat j)].
Proof.
  intros Hn Hi Hj num_bits.
  destruct (node_below_width n i Hn Hi) as [Hw Hbi].
  destruct (node_below_width n j Hn Hj) as [_ Hbj].
  pose proof (length_format_0b _ _ Hw Hbi) as Li.
  pose proof (length_format_0b _ _ Hw Hbj) as Lj.
  fold num_bits in Li, Lj.
  repeat split; try assumption.
  - unfold pair_label. rewrite !string_length_app, Li, Lj. simpl. lia.
  - unfold pair_label. apply split_pair;
      (apply format_0b_nonempty || apply binary_digits_nospace, binary_digits_format_0b).
Qed.

Lemma pair_label_fixed_width_witness :
  String.length (Py.format_0b (Nat.log2_up 5) (N.of_nat 1)) = Nat.log2_up 5 /\
  String.length (Py.format_0b (Nat.log2_up 5) (N.of_nat 4)) = Nat.log2_up 5 /\
  String.length (pair_label (Nat.log2_up 5) 1 4) = (2 * Nat.log2_up 5 + 1)%nat /\
  Py.split (pair_label (Nat.log2_up 5) 1 4) =
    [Py.format_0b (Nat.log2_up 5) (N.of_nat 1); Py.format_0b (Nat.log2_up 5) (N.of_nat 4)].
Proof.
  apply (pair_label_fixed_width 5 1 4); lia.
Defined.

(** Two strings free of [c] around one [c]: the parts are determined. *)
Lemma app_sep_inj (c : ascii) (s s' t t' : string) :
  ~ In c (chars s) -> ~ In c (chars s') ->
  (s ++ String c t)%string = (s' ++ String c t')%string -> s = s' /\ t = t'.
Proof.
  revert s'. induction s as [|x s IH]; intros s' Hs Hs' E.
  - destruct s' as [|x' s']; simpl in E.
    + inversion E. now split.
    + inversion E. subst x'. exfalso. apply Hs'. now left.
  - destruct s' as [|x' s']; simpl in E.
    + inversion E. subst x. exfalso. apply Hs. now left.
    + inversion E. subst x'. destruct (IH s') as [-> ->]; try assumption.
      * intros H. apply Hs. now right.
      * intros H. apply Hs'. now right.
      * now split.
Qed.

Lemma str_N_no_hyphen (n : N) : ~ In "-"%char (chars (Py.str_N n)).
Proof. intros H. apply str_N_digits in H. discriminate. Qed.

Lemma str_N_inj (a b : N) : Py.str_N a = Py.str_N b -> a = b.
Proof.
  intros H. rewrite <- (str_N_value a), <- (str_N_value b). now rewrite H.
Qed.

Lemma decimal_label_pair_label (w i j : nat) :
  decimal_label (pair_label w i j) =
  (Py.str_N (N.of_nat i) ++ "-" ++ Py.str_N (N.of_nat j))%string.
Proof.
  unfold pair_label.
  rewrite decimal_label_binary_pair
    by (try apply format_0b_nonempty; apply binary_digits_format_0b).
  now rewrite !bits_fold_format_0b.
Qed.

(** X5.  Distinct node pairs never collide: two labels built by the filter,
    at whatever widths, that [convert_to_decimal] renames to the same
    decimal label encode the same pair; in particular the labels of one
    width are pairwise distinct. *)
Theorem pair_labels_do_not_collide (w w' i j i' j' : nat) :
  (decimal_label (pair_label w i j) = decimal_label (pair_label w' i' j') ->
   i = i' /\ j = j') /\
  (pair_label w i j = pair_label w i' j' -> i = i' /\ j = j').
Proof.
  assert (H : decimal_label (pair_label w i j) = decimal_label (pair_label w' i' j') ->
              i = i' /\ j = j').
  { rewrite !decimal_label_pair_label. intros E.
    apply app_sep_inj in E as [Ei Ej]; try apply str_N_no_hyphen.
    apply str_N_inj in Ei. apply str_N_inj in Ej. lia. }
  split; [exact H |].
  intros E. clear H.
  assert (H' : decimal_label (pair_label w i j) = decimal_label (pair_label w i' j'))
    by now rewrite E.
  rewrite !decimal_label_pair_label in H'.
  apply app_sep_inj in H' as [Ei Ej]; try apply str_N_no_hyphen.
  apply str_N_inj in Ei. apply str_N_inj in Ej. lia.
Qed.

(** ** Further properties of [convert_to_decimal] *)

Lemma nth_error_map_inv {A B : Type} (f : A -> B) (l : list A) (k : nat) (b : B) :
  nth_error (map f l) k = Some b -> exists a, nth_error l k = Some a /\ f a = b.
Proof.
  revert k. induction l as [|x l IH]; intros [|k] H; simpl in H; try discriminate.
  - inversion H. now exists x.
  - now apply IH.
Qed.

(** A frame none of whose labels contains whitespace is left as it is. *)
Lemma convert_to_decimal_plain (d : Pd.DataFrame) :
  (forall l, In l (Pd.labels d) -> nospace l) ->
  convert_to_decimal (mkRDF d) = (mkRDF d, Py.ok tt).
Proof.
  intros Hall. rewrite convert_to_decimal_run.
  destruct d as [idx cols]. cbn [Pd.index Pd.columns] in *. do 3 f_equal.
  rewrite <- (map_id cols) at 2. apply map_ext_in. intros [l cs] Hc. cbn [fst snd].
  rewrite decimal_label_nospace; [reflexivity |].
  apply Hall. now apply (in_map fst) in Hc.
Qed.

(** X6.  [convert_to_decimal] never raises, whatever the labels are: the
    [try] block absorbs every failure.  It keeps the row labels, the cells
    and the number and order of the columns, and a label without whitespace
    (['Time'], an already converted label, an opaque identifier) is left
    as it is. *)
Theorem convert_to_decimal_never_raises (d : Pd.DataFrame) :
  exists d',
    convert_to_decimal (mkRDF d) = (mkRDF d', Py.ok tt) /\
    Pd.index d' = Pd.index d /\
    map snd (Pd.columns d') = map snd (Pd.columns d) /\
    List.length (Pd.columns d') = List.length (Pd.columns d) /\
    (forall k l, nth_error (Pd.labels d) k = Some l -> nospace l ->
                 nth_error (Pd.labels d') k = Some l) /\
    ((forall l, In l (Pd.labels d) -> nospace l) -> d' = d).
Proof.
  eexists. split; [apply convert_to_decimal_run |].
  unfold Pd.labels. cbn [Pd.index Pd.columns]. rewrite !map_map. cbn [fst snd].
  split; [reflexivity |]. split; [reflexivity |]. split; [apply length_map |]. split.
  - intros k l Hk Hl. apply nth_error_map_inv in Hk as (c & E & <-).
    rewrite (nth_error_map_some _ _ _ _ E). now rewrite decimal_label_nospace.
  - intros Hall. pose proof (convert_to_decimal_plain d Hall) as H.
    rewrite convert_to_decimal_run in H. inversion H as [H1]. now rewrite H1.
Qed.

Lemma has_space_not_nospace (x y : string) : ~ nospace (x ++ " " ++ y).
Proof.
  intros H. assert (E : Py.isspace " " = false).
  { apply H. rewrite chars_app. apply in_or_app. right. now left. }
  vm_compute in E. discriminate E.
Qed.

(** No label that [convert_to_decimal] produces is a pair label. *)
Lemma decimal_label_not_pair_label (l : string) (w i j : nat) :
  decimal_label l <> pair_label w i j.
Proof.
  intros E. destruct (decimal_label_cases l) as [H | (a & c & H)].
  - rewrite H in E. subst l. rewrite decimal_label_pair_label in H.
    apply (has_space_not_nospace (Py.format_0b w (N.of_nat i)) (Py.format_0b w (N.of_nat j))).
    fold (pair_label w i j). rewrite <- H.
    apply nospace_app; [apply str_N_nospace |].
    apply nospace_cons. split; [reflexivity | apply str_N_nospace].
  - rewrite H in E.
    apply (has_space_not_nospace (Py.format_0b w (N.of_nat i)) (Py.format_0b w (N.of_nat j))).
    fold (pair_label w i j). rewrite <- E.
    apply nospace_app; [apply str_int_nospace |].
    apply nospace_cons. split; [reflexivity | apply str_int_nospace].
Qed.

(** X7.  The order of the pipeline matters: once the labels are converted
    the filter recognises none of them.  On a frame whose converted labels
    are distinct, [filter_connected_columns] after [convert_to_decimal]
    removes nothing. *)
Theorem filter_after_convert_removes_nothing
  (A : Np.ndarray) (n : nat) (d : Pd.DataFrame) :
  (1 <= n)%nat -> square n A ->
  NoDup (map decimal_label (Pd.labels d)) ->
  (convert_to_decimal ;; filter_connected_columns A) (mkRDF d) =
  convert_to_decimal (mkRDF d).
Proof.
  intros Hn Hsq Hnd. unfold bind. rewrite convert_to_decimal_run.
  rewrite (filter_connected_columns_run A n); try assumption.
  - unfold Py.ok. cbn [Pd.index Pd.columns]. do 3 f_equal.
    apply forallb_filter_id. apply forallb_forall. intros c Hc.
    apply in_map_iff in Hc as (c0 & <- & _). unfold kept. cbn [fst].
    apply negb_true_iff, not_true_is_false. intros He.
    apply exclusions_spec in He as (i & j & _ & _ & _ & He).
    now apply decimal_label_not_pair_label in He.
  - unfold Pd.labels in *. cbn [Pd.columns]. rewrite map_map. cbn [fst].
    now rewrite map_map in Hnd.
Qed.

Lemma filter_after_convert_removes_nothing_witness :
  (convert_to_decimal ;; filter_connected_columns example_adjacency) (mkRDF example_table) =
  convert_to_decimal (mkRDF example_table).
Proof.
  apply (filter_after_convert_removes_nothing example_adjacency 4 example_table).
  - lia.
  - split; [reflexivity | repeat constructor].
  - repeat constructor; simpl; intuition discriminate.
Defined.

(** ** Further properties of [add_max_and_avg] *)

Lemma for_each_length {A B : Type} (f : A -> Py.result B) (xs : list A) (ys : list B) :
  Py.for_each f xs = Py.ok ys -> List.length ys = List.length xs.
Proof.
  revert ys. induction xs as [|x xs IH]; intros ys H; simpl in H.
  - inversion H. reflexivity.
  - destruct (f x) as [e|y]; [discriminate |]. simpl in H.
    destruct (Py.for_each f xs) as [e|ys']; [discriminate |]. simpl in H.
    inversion H. simpl. f_equal. now apply IH.
Qed.

Lemma reduce_length (f : list Q -> Pd.cell) (d : Pd.DataFrame) (s : Pd.Series) :
  Pd.reduce f d = Py.ok s -> List.length (Pd.tolist s) = List.length (Pd.columns d).
Proof.
  intros H. unfold Pd.tolist. rewrite length_map. now apply for_each_length in H.
Qed.

Lemma loc_setitem_ok_length (d d1 : Pd.DataFrame) (l : Z) (r : list Pd.cell) :
  Pd.loc_setitem d l r = Py.ok d1 ->
  List.length r = List.length (Pd.columns d) /\
  List.length (Pd.columns d1) = List.length (Pd.columns d).
Proof.
  unfold Pd.loc_setitem. destruct (Nat.eqb_spec (List.length r) (List.length (Pd.columns d)))
    as [E | E]; [| discriminate].
  intros H. split; [assumption |].
  destruct (existsb (Z.eqb l) (Pd.index d)); inversion H; cbn [Pd.columns];
    rewrite length_map, length_combine; lia.
Qed.




Lemma numeric_raises (cs : list Pd.cell) (s : string) :
  In (Pd.Str s) cs -> Pd.numeric cs = Py.raise Py.TypeError.
Proof.
  induction cs as [|c cs IH]; intros H; [destruct H |].
  destruct c as [q | | s']; simpl.
  - destruct H as [H | H]; [discriminate |]. now rewrite IH.
  - destruct H as [H | H]; [discriminate |]. now apply IH.
  - reflexivity.
Qed.

Lemma numeric_ok_or_type_error (cs : list Pd.cell) :
  (exists qs, Pd.numeric cs = Py.ok qs) \/ Pd.numeric cs = Py.raise Py.TypeError.
Proof.
  induction cs as [|c cs IH]; [left; now exists [] |].
  destruct c as [q | | s]; simpl; [| exact IH | now right].
  destruct IH as [(qs & ->) | ->]; [left; now eexists | now right].
Qed.

Lemma drop_present (label : string) (d : Pd.DataFrame) :
  In label (Pd.labels d) ->
  Pd.drop label d =
  Py.ok (Pd.mkDF (Pd.index d)
           (filter (fun c : Pd.column => negb (fst c =? label)%string) (Pd.columns d))).
Proof.
  intros H. unfold Pd.drop. apply has_label_in in H. now rewrite H.
Qed.

(** X9.  A string among the cells of a column other than ['Time'] makes
    [add_max_and_avg] raise [TypeError] when the reductions are computed;
    no row is written. *)
Theorem add_max_and_avg_rejects_strings
  (d : Pd.DataFrame) (c : Pd.column) (s : string) :
  In "Time" (Pd.labels d) ->
  In c (Pd.columns d) -> fst c <> "Time" -> In (Pd.Str s) (snd c) ->
  add_max_and_avg (mkRDF d) = (mkRDF d, Py.raise Py.TypeError).
Proof.
  intros Htime Hc Hname Hs. destruct d as [idx cols].
  unfold add_max_and_avg. step_method.
  rewrite drop_present by assumption. step_method.
  assert (Hmax : Pd.max (Pd.mkDF idx
                   (filter (fun c0 : Pd.column => negb (fst c0 =? "Time")%string) cols))
                 = Py.raise Py.TypeError).
  { unfold Pd.max, Pd.reduce. cbn [Pd.columns]. apply for_each_raise.
    - intros x _. destruct (numeric_ok_or_type_error (snd x)) as [(qs & ->) | ->];
        [left; eexists; reflexivity | now right].
    - exists c. split.
      + apply filter_In. split; [assumption |].
        apply negb_true_iff. now apply String.eqb_neq.
      + now rewrite (numeric_raises (snd c) s Hs). }
  now rewrite Hmax.
Qed.

Lemma add_max_and_avg_rejects_strings_witness :
  let d := Pd.mkDF [0]%Z [("Time", [Pd.Num 0]); ("A", [Pd.Str "n/a"])] in
  add_max_and_avg (mkRDF d) = (mkRDF d, Py.raise Py.TypeError).
Proof.
  intros d. apply (add_max_and_avg_rejects_strings d ("A", [Pd.Str "n/a"]) "n/a").
  - simpl. auto.
  - simpl. auto.
  - discriminate.
  - simpl. auto.
Defined.

Lemma filter_not_label_length (l : string) (cols : list Pd.column) :
  (List.length (filter (fun c : Pd.column => negb (fst c =? l)%string) cols)
   + count_occ string_dec (map fst cols) l)%nat = List.length cols.
Proof.
  induction cols as [|c cols IH]; simpl; [reflexivity |].
  destruct (String.eqb_spec (fst c) l) as [E | E]; simpl.
  - destruct (string_dec (fst c) l); [lia | contradiction].
  - destruct (string_dec (fst c) l); [contradiction | lia].
Qed.

(** X10.  When ['Time'] labels more than one column, [drop] removes them
    all, the new row is too short for the frame, and [add_max_and_avg]
    raises [ValueError] without writing anything. *)
Theorem add_max_and_avg_rejects_repeated_time (d : Pd.DataFrame) :
  (2 <= count_occ string_dec (Pd.labels d) "Time")%nat ->
  (forall c, In c (Pd.columns d) -> fst c <> "Time" -> no_str (snd c)) ->
  add_max_and_avg (mkRDF d) = (mkRDF d, Py.raise Py.ValueError).
Proof.
  intros Hcount Hnum. destruct d as [idx cols]. unfold Pd.labels in Hcount.
  cbn [Pd.columns] in *.
  unfold add_max_and_avg. step_method.
  rewrite drop_present
    by (apply (count_occ_In string_dec); unfold Pd.labels; cbn [Pd.columns]; lia).
  step_method. unfold Pd.max, Pd.mean.
  assert (Hrest : Forall (fun c : Pd.column => no_str (snd c))
                    (filter (fun c : Pd.column => negb (fst c =? "Time")%string) cols)).
  { apply Forall_forall. intros c Hc. apply filter_In in Hc as [Hc Hn].
    apply Hnum; [assumption |]. apply negb_true_iff in Hn. now apply String.eqb_neq. }
  rewrite !reduce_ok by assumption.
  step_method. unfold Pd.loc_setitem. cbn [Pd.columns].
  unfold Pd.tolist. cbn [List.length]. rewrite !length_map.
  pose proof (filter_not_label_length "Time" cols) as Hlen.
  destruct (Nat.eqb_spec
              (S (List.length (filter (fun c : Pd.column => negb (fst c =? "Time")%string) cols)))
              (List.length cols)) as [E | E]; [lia | reflexivity].
Qed.

Lemma add_max_and_avg_rejects_repeated_time_witness :
  let d := Pd.mkDF [0]%Z [("Time", [Pd.Num 0]); ("A", [Pd.Num 1]); ("Time", [Pd.Num 0])] in
  add_max_and_avg (mkRDF d) = (mkRDF d, Py.raise Py.ValueError).
Proof.
  intros d. apply (add_max_and_avg_rejects_repeated_time d).
  - simpl. lia.
  - intros c [<- | [<- | [<- | []]]] Hn s; simpl; intuition discriminate.
Defined.











(** X13.  On a frame without rows the reductions have nothing to reduce:
    the two rows are appended at the labels 0 and 1 and hold the missing
    value in every data column. *)
Theorem add_max_and_avg_on_empty_table (rest : list Pd.column) :
  ~ In "Time" (map fst rest) ->
  (forall c, In c rest -> snd c = []) ->
  add_max_and_avg (mkRDF (Pd.mkDF [] (("Time", []) :: rest))) =
  (mkRDF (Pd.mkDF [0; 1]%Z
            (("Time", [Pd.Str "P-max"; Pd.Str "P-avg"])
             :: map (fun c : Pd.column => (fst c, [Pd.NaN; Pd.NaN])) rest)),
   Py.ok tt).
Proof.
  intros Hnot Hempty.
  rewrite add_max_and_avg_appends.
  - cbn [List.length app]. do 4 f_equal. apply map_ext_in. intros c Hc.
    now rewrite (Hempty c Hc).
  - assumption.
  - apply Forall_forall. intros c Hc. rewrite (Hempty c Hc). intros s [].
  - split; intros [].
Qed.

Lemma add_max_and_avg_on_empty_table_witness :
  add_max_and_avg (mkRDF (Pd.mkDF [] [("Time", []); ("A", []); ("B", [])])) =
  (mkRDF (Pd.mkDF [0; 1]%Z
            [("Time", [Pd.Str "P-max"; Pd.Str "P-avg"]);
             ("A", [Pd.NaN; Pd.NaN]); ("B", [Pd.NaN; Pd.NaN])]),
   Py.ok tt).
Proof.
  apply (add_max_and_avg_on_empty_table [("A", []); ("B", [])]).
  - simpl. intuition discriminate.
  - intros c [<- | [<- | []]]; reflexivity.
Defined.

(** ** The pipelines *)



(** X15.  [postprocess_superposition] is not atomic: on a frame without a
    ['Time'] column the filter has already replaced the frame when
    [add_max_and_avg] raises [KeyError], so the instance is left with the
    filtered columns, not relabelled. *)
Theorem postprocess_superposition_without_time
  (A : Np.ndarray) (n : nat) (d : Pd.DataFrame) :
  (1 <= n)%nat -> square n A -> NoDup (Pd.labels d) ->
  ~ In "Time" (Pd.labels d) ->
  postprocess_superposition A (mkRDF d) =
  (mkRDF (Pd.mkDF (Pd.index d) (filter (kept A n (Nat.log2_up n)) (Pd.columns d))),
   Py.raise Py.KeyError).
Proof.
  intros Hn Hsq Hnd Hnot.
  unfold postprocess_superposition. unfold bind at 1.
  rewrite (filter_connected_columns_run A n) by assumption.
  unfold bind. rewrite add_max_and_avg_untimed; [reflexivity |].
  cbn [df]. unfold Pd.labels. cbn [Pd.columns]. intros H.
  apply Hnot. now apply labels_filter_incl in H.
Qed.

Lemma postprocess_superposition_without_time_witness :
  let d := Pd.mkDF [0]%Z [("00 01", [Pd.Num 1]); ("00 10", [Pd.Num 0])] in
  postprocess_superposition example_adjacency (mkRDF d) =
  (mkRDF (Pd.mkDF (Pd.index d)
            (filter (kept example_adjacency 4 (Nat.log2_up 4)) (Pd.columns d))),
   Py.raise Py.KeyError).
Proof.
  intros d. apply (postprocess_superposition_without_time example_adjacency 4 d).
  - lia.
  - split; [reflexivity | repeat constructor].
  - repeat constructor; simpl; intuition discriminate.
  - simpl. intuition discriminate.
Defined.





Lemma labels_of_written (f : Pd.column * Pd.cell -> list Pd.cell)
      (cols : list Pd.column) (r : list Pd.cell) :
  List.length r = List.length cols ->
  map fst (map (fun cv : Pd.column * Pd.cell => (fst (fst cv), f cv)) (combine cols r)) =
  map fst cols.
Proof.
  revert r. induction cols as [|c cols IH]; intros [|v r] H; simpl in *;
    try reflexivity; try lia.
  f_equal. apply IH. lia.
Qed.

Lemma loc_setitem_labels (d d1 : Pd.DataFrame) (l : Z) (r : list Pd.cell) :
  Pd.loc_setitem d l r = Py.ok d1 -> Pd.labels d1 = Pd.labels d.
Proof.
  unfold Pd.loc_setitem. destruct (Nat.eqb_spec (List.length r) (List.length (Pd.columns d)))
    as [E | E]; [| discriminate].
  intros H. unfold Pd.labels.
  destruct (existsb (Z.eqb l) (Pd.index d)); inversion H; cbn [Pd.columns];
    now apply labels_of_written.
Qed.

(** Whenever [add_max_and_avg] succeeds the column labels are unchanged. *)
Lemma add_max_and_avg_labels (self self' : ResultsDataframe) :
  add_max_and_avg self = (self', Py.ok tt) ->
  Pd.labels (df self') = Pd.labels (df self).
Proof.
  destruct self as [[idx cols]]. intros H.
  unfold add_max_and_avg in H.
  unfold bind, eval, self_df, set_self_df, ret, Py.ok, Py.raise, Pd.copy in H.
  cbn [df Pd.index Pd.columns] in H.
  destruct (Pd.drop "Time" (Pd.mkDF idx cols)) as [e1 | dd]; [discriminate |].
  destruct (Pd.max dd) as [e2 | pmax]; [discriminate |].
  destruct (Pd.mean dd) as [e3 | pavg]; [discriminate |].
  destruct (Pd.loc_setitem (Pd.mkDF idx cols) _ (Pd.Str "P-max" :: Pd.tolist pmax))
    as [e4 | d1] eqn:L1; [discriminate |].
  destruct (Pd.loc_setitem d1 _ (Pd.Str "P-avg" :: Pd.tolist pavg))
    as [e5 | d2] eqn:L2; [discriminate |].
  inversion H. cbn [df].
  apply loc_setitem_labels in L1. apply loc_setitem_labels in L2. congruence.
Qed.

Lemma kept_nospace (A : Np.ndarray) (n w : nat) (c : Pd.column) :
  nospace (fst c) -> kept A n w c = true.
Proof.
  intros H. unfold kept. apply negb_true_iff, not_true_is_false. intros He.
  apply exclusions_spec in He as (i & j & _ & _ & _ & He).
  rewrite He in H. now apply has_space_not_nospace in H.
Qed.

(** X17.  On single-node output the two pipelines agree: when no column
    label contains whitespace, the filter recognises no label and the
    relabelling changes none, so [postprocess_superposition] does exactly
    what [postprocess_one_node] does, whether that succeeds or raises. *)
Theorem postprocess_superposition_on_plain_labels
  (A : Np.ndarray) (n : nat) (d : Pd.DataFrame) :
  (1 <= n)%nat -> square n A -> NoDup (Pd.labels d) ->
  (forall l, In l (Pd.labels d) -> nospace l) ->
  postprocess_superposition A (mkRDF d) = postprocess_one_node (mkRDF d).
Proof.
  intros Hn Hsq Hnd Hplain.
  unfold postprocess_superposition, postprocess_one_node. unfold bind at 1.
  rewrite (filter_connected_columns_run A n) by assumption.
  assert (Hkeep : filter (kept A n (Nat.log2_up n)) (Pd.columns d) = Pd.columns d).
  { apply forallb_filter_id, forallb_forall. intros c Hc. apply kept_nospace.
    apply Hplain. unfold Pd.labels. now apply in_map. }
  rewrite Hkeep. destruct d as [idx cols]. cbn [Pd.index Pd.columns] in *.
  unfold bind.
  destruct (add_max_and_avg (mkRDF (Pd.mkDF idx cols))) as [self' [e | []]] eqn:Hadd;
    [reflexivity |].
  apply add_max_and_avg_labels in Hadd. cbn [df] in Hadd.
  destruct self' as [d1].
  apply convert_to_decimal_plain.
  intros l Hl. apply Hplain. now rewrite <- Hadd.
Qed.

Lemma postprocess_superposition_on_plain_labels_witness :
  let d := Pd.mkDF [0; 1; 2]%Z
             [("Time", [Pd.Num 0; Pd.Num 1; Pd.Num 2]);
              ("A", [Pd.Num 1; Pd.Num 0; Pd.Num (1 # 2)]);
              ("B", [Pd.Num 0; Pd.Num 1; Pd.Num (1 # 2)])] in
  postprocess_superposition example_adjacency (mkRDF d) = postprocess_one_node (mkRDF d).
Proof.
  intros d. apply (postprocess_superposition_on_plain_labels example_adjacency 4 d).
  - lia.
  - split; [reflexivity | repeat constructor].
  - repeat constructor; simpl; intuition discriminate.
  - intros l [<- | [<- | [<- | []]]] c Hc; simpl in Hc;
      repeat (destruct Hc as [<- | Hc]; [reflexivity |]); destruct Hc.
Defined.

Lemma for_each_ok_inv {A B : Type} (f : A -> Py.result B) (xs : list A) (ys : list B) :
  Py.for_each f xs = Py.ok ys -> forall x, In x xs -> exists y, f x = Py.ok y.
Proof.
  revert ys. induction xs as [|a xs IH]; intros ys H x Hx; [destruct Hx |].
  simpl in H. destruct (f a) as [e|y] eqn:Ea; [discriminate |]. simpl in H.
  destruct (Py.for_each f xs) as [e|ys'] eqn:Exs; [discriminate |].
  destruct Hx as [<- | Hx]; [now exists y | now apply (IH ys')].
Qed.

Lemma numeric_ok_no_str (cs : list Pd.cell) (qs : list Q) :
  Pd.numeric cs = Py.ok qs -> no_str cs.
Proof.
  intros H s Hin. rewrite (numeric_raises cs s Hin) in H. discriminate.
Qed.

(** X18.  [add_max_and_avg] succeeds only on the frames it is meant for:
    if it returns normally then exactly one column is labelled ['Time'] and
    no other column holds a string; the column labels are the same after
    the call. *)
Theorem add_max_and_avg_success_conditions (d : Pd.DataFrame) (self' : ResultsDataframe) :
  add_max_and_avg (mkRDF d) = (self', Py.ok tt) ->
  count_occ string_dec (Pd.labels d) "Time" = 1%nat /\
  (forall c, In c (Pd.columns d) -> fst c <> "Time" -> no_str (snd c)) /\
  Pd.labels (df self') = Pd.labels d.
Proof.
  intros H. split; [| split]; [| | now apply add_max_and_avg_labels in H].
  - destruct d as [idx cols].
    unfold add_max_and_avg in H.
    unfold bind, eval, self_df, set_self_df, ret, Py.ok, Py.raise, Pd.copy in H.
    cbn [df Pd.index Pd.columns] in H.
    unfold Pd.drop in H. cbn [Pd.index Pd.columns] in H.
    destruct (Pd.has_label "Time" (Pd.labels (Pd.mkDF idx cols))); [| discriminate].
    unfold Py.ok in H.
    destruct (Pd.max _) as [e2 | pmax] eqn:Emax; [discriminate |].
    destruct (Pd.mean _) as [e3 | pavg]; [discriminate |].
    destruct (Pd.loc_setitem _ _ (Pd.Str "P-max" :: Pd.tolist pmax))
      as [e4 | d1] eqn:L1; [discriminate |].
    apply loc_setitem_ok_length in L1 as [Lr _].
    apply reduce_length in Emax. cbn [Pd.columns List.length] in *.
    pose proof (filter_not_label_length "Time" cols) as Hlen.
    unfold Pd.labels. cbn [Pd.columns]. unfold Pd.column in *. lia.
  - intros c Hc Hname. destruct d as [idx cols].
    unfold add_max_and_avg in H.
    unfold bind, eval, self_df, set_self_df, ret, Py.ok, Py.raise, Pd.copy in H.
    cbn [df Pd.index Pd.columns] in H.
    unfold Pd.drop in H. cbn [Pd.index Pd.columns] in H.
    destruct (Pd.has_label "Time" (Pd.labels (Pd.mkDF idx cols))); [| discriminate].
    unfold Py.ok in H.
    destruct (Pd.max _) as [e2 | pmax] eqn:Emax; [discriminate |].
    unfold Pd.max, Pd.reduce in Emax. cbn [Pd.columns] in Emax.
    destruct (for_each_ok_inv _ _ _ Emax c) as (y & Hy).
    + apply filter_In. split; [assumption |].
      apply negb_true_iff. now apply String.eqb_neq.
    + destruct (Pd.numeric (snd c)) as [e | qs] eqn:En; [discriminate |].
      now apply (numeric_ok_no_str _ qs).
Qed.

Lemma add_max_and_avg_success_conditions_witness :
  count_occ string_dec (Pd.labels example_table) "Time" = 1%nat /\
  (forall c, In c (Pd.columns example_table) -> fst c <> "Time" -> no_str (snd c)) /\
  Pd.labels (df (fst (add_max_and_avg (mkRDF example_table)))) = Pd.labels example_table.
Proof.
  apply (add_max_and_avg_success_conditions example_table
           (fst (add_max_and_avg (mkRDF example_table)))).
  lazy. reflexivity.
Defined.
